(** * A shallow embedding of the CRUD backend (app/database.py, app/main.py)

    The handlers of [app/main.py] are written in a state-and-exception monad
    over an explicit model of the object-relational session they call; the
    module-level retry loop of [app/database.py] is a recursive function over
    an oracle telling which connection attempts succeed. *)

From stdpp Require Import base option list gmap strings sorting.
From Stdlib Require Import ZArith QArith.QArith_base Lia OrdersEx.

Local Open Scope Z_scope.
Local Open Scope string_scope.

(** ** Python values

    The JSON scalars a request body can carry and an attribute can hold.
    Attributes are dynamically typed: [setattr] stores whatever it is given. *)

Inductive value : Type :=
  | VNone
  | VInt (z : Z)
  | VStr (s : string).

#[global] Instance value_eq_dec : EqDecision value.
Proof. solve_decision. Defined.

#[global] Instance value_inhabited : Inhabited value := populate VNone.

(** A Python [dict] with string keys: keys are unique by construction. *)
Abbreviation dict := (gmap string value).

(** [d.items()]. *)
Definition items (d : dict) : list (string * value) := map_to_list d.

(** ** Outcomes and the exceptions the handlers can meet *)

Inductive exn : Type :=
  | HTTPException (status_code : Z) (detail : string)
  | IntegrityError
  | FlushError
  | StaleDataError
  | InvalidRequestError
  | CompileError
  | OperationalError
  | AttributeError
  | NameError.

#[global] Instance exn_eq_dec : EqDecision exn.
Proof. solve_decision. Defined.

Inductive outcome (A : Type) : Type :=
  | Returned (a : A)
  | Raised (e : exn).

Arguments Returned {A} a.
Arguments Raised {A} e.

(** ** Entities

    [app/models.py] and [app/schemas.py] are not among the sources; the
    entities are taken from section 3 of the specification, with the
    attribute names [app/main.py] uses.  Attributes inherited from Python's
    [object] and from the declarative base class are outside the model. *)

(** Modelled from the spec: the class [UserDB] of [app/models.py], with the
    columns [id], [name], [email] and [student_id]. *)
Record UserDB : Type := mkUserDB {
  user_id : value;
  user_name : value;
  user_email : value;
  user_student_id : value }.

(** Modelled from the spec: the many-to-one attribute [ProjectDB.owner] of
    [app/models.py], for an object that was loaded without its owner: left
    alone, or assigned [None]. *)
Inductive owner_attr : Type :=
  | Owner_unloaded
  | Owner_none.

(** Modelled from the spec: the class [ProjectDB] of [app/models.py], with
    the columns [id], [name], [description] and [owner_id] and the
    relationship [owner]. *)
Record ProjectDB : Type := mkProjectDB {
  project_id : value;
  project_name : value;
  project_description : value;
  project_owner_id : value;
  project_owner : owner_attr }.

(** Modelled from the spec: the class [CourseDB] of [app/models.py].  The
    specification leaves the attributes of a course open ("opaque
    uniqueness-checked attributes"): a course is its generated id and the
    attributes of the payload it was created from, and the unique constraint
    is on these attributes as a whole. *)
Record CourseDB : Type := mkCourseDB {
  course_id : value;
  course_attrs : dict }.

#[global] Instance UserDB_eq_dec : EqDecision UserDB.
Proof. solve_decision. Defined.
#[global] Instance owner_attr_eq_dec : EqDecision owner_attr.
Proof. solve_decision. Defined.
#[global] Instance ProjectDB_eq_dec : EqDecision ProjectDB.
Proof. solve_decision. Defined.
#[global] Instance CourseDB_eq_dec : EqDecision CourseDB.
Proof. solve_decision. Defined.

(** Modelled from the spec: the request payloads of [app/schemas.py], as
    the handlers read them; a payload is validated before the handler runs. *)
Record UserCreate : Type := mkUserCreate {
  uc_name : string;
  uc_email : string;
  uc_student_id : string }.

(** Modelled from the spec: the payload of POST and PUT on a project. *)
Record ProjectCreate : Type := mkProjectCreate {
  pc_name : string;
  pc_description : option string;
  pc_owner_id : Z }.

(** Modelled from the spec: the payload of POST /api/users/{id}/projects. *)
Record ProjectCreateForUser : Type := mkProjectCreateForUser {
  pcu_name : string;
  pcu_description : option string }.

(** Modelled from the spec: the payload of POST /api/courses, opaque like
    the course itself. *)
Record CourseCreate : Type := mkCourseCreate {
  cc_attrs : dict }.

Definition optional_str (o : option string) : value :=
  match o with
  | Some s => VStr s
  | None => VNone
  end.

(** [payload.model_dump()]. *)
Definition user_model_dump (payload : UserCreate) : dict :=
  {[ "name" := VStr (uc_name payload);
     "email" := VStr (uc_email payload);
     "student_id" := VStr (uc_student_id payload) ]}.

Definition project_model_dump (project : ProjectCreate) : dict :=
  {[ "name" := VStr (pc_name project);
     "description" := optional_str (pc_description project);
     "owner_id" := VInt (pc_owner_id project) ]}.

Definition course_model_dump (course : CourseCreate) : dict := cc_attrs course.

(** ** The store *)

Record Store : Type := mkStore {
  users : list UserDB;
  courses : list CourseDB;
  projects : list ProjectDB }.

(** [SELECT ... WHERE id = key], first row. *)
Definition select_user (s : Store) (key : value) : option UserDB :=
  head (filter (λ u, user_id u = key) (users s)).

Definition select_project (s : Store) (key : value) : option ProjectDB :=
  head (filter (λ p, project_id p = key) (projects s)).

Definition select_course (s : Store) (key : value) : option CourseDB :=
  head (filter (λ c, course_id c = key) (courses s)).

(** The id the store generates for a new row: one more than the largest
    integer id in use, 1 for an empty table. *)
Definition int_ids (ids : list value) : list Z :=
  omap (λ v, match v with VInt z => Some z | _ => None end) ids.

Definition next_id (ids : list value) : value :=
  match int_ids ids with
  | [] => VInt 1
  | z :: zs => VInt (1 + foldr Z.max z zs)
  end.

Definition is_none (v : value) : bool :=
  match v with
  | VNone => true
  | _ => false
  end.

(** ** Constraints of the three tables

    The tables are declared in [app/models.py]; their constraints are the
    ones of section 3 of the specification.  Column types are not enforced:
    a value is stored as it is supplied. *)

(** Modelled from the spec: the columns of a user are required. *)
Definition user_row_ok (u : UserDB) : bool :=
  negb (is_none (user_id u)) && negb (is_none (user_name u))
  && negb (is_none (user_email u)) && negb (is_none (user_student_id u)).

(** Modelled from the spec: two user rows that cannot both be stored have
    the same primary key, the same email or the same student id. *)
Definition user_conflicts (u v : UserDB) : bool :=
  bool_decide (user_id u = user_id v)
  || bool_decide (user_email u = user_email v)
  || bool_decide (user_student_id u = user_student_id v).

(** The foreign key column as the flush writes it: assigning [None] to the
    [owner] attribute blanks the column. *)
Definition effective_owner_id (p : ProjectDB) : value :=
  match project_owner p with
  | Owner_none => VNone
  | Owner_unloaded => project_owner_id p
  end.

(** Modelled from the spec: [id], [name] and [owner_id] of a project are
    required, [description] is optional. *)
Definition project_row_ok (p : ProjectDB) : bool :=
  negb (is_none (project_id p)) && negb (is_none (project_name p))
  && negb (is_none (effective_owner_id p)).

(** Modelled from the spec: a project has no unique column but its key. *)
Definition project_conflicts (p q : ProjectDB) : bool :=
  bool_decide (project_id p = project_id q).

(** Modelled from the spec: two courses conflict when they have the same
    key or the same uniqueness-checked attributes. *)
Definition course_conflicts (c d : CourseDB) : bool :=
  bool_decide (course_id c = course_id d)
  || bool_decide (course_attrs c = course_attrs d).

(** ** The session

    A session holds the committed store, the store as the open transaction
    sees it, the objects waiting for the next flush, the identity of the
    objects it has flushed, and the list of the transaction-control calls made
    on it, in order. *)

Inductive instance : Type :=
  | User_instance (u : UserDB)
  | Course_instance (c : CourseDB)
  | Project_instance (p : ProjectDB).

#[global] Instance instance_eq_dec : EqDecision instance.
Proof. solve_decision. Defined.

Inductive pending : Type :=
  | New (obj : instance)
  | Dirty_project (key : value) (p : ProjectDB)
  | Deleted_user (u : UserDB).

Inductive session_call : Type :=
  | Call_commit
  | Call_rollback
  | Call_close.

#[global] Instance session_call_eq_dec : EqDecision session_call.
Proof. solve_decision. Defined.

Record Session : Type := mkSession {
  database : Store;
  transaction : Store;
  unit_of_work : list pending;
  identity_map : list (instance * value);
  calls : list session_call }.

(** [SessionLocal()]: a new session on the store. *)
Definition SessionLocal (s : Store) : Session := mkSession s s [] [] [].

(** One statement of a flush, with the identity it gives to the object.
    A new object without id gets a generated one; a row is checked against
    the constraints of its table by the statement that writes it; a modified
    object whose attributes are those of its row gives no statement, and one
    whose primary key was set to [None] cannot be flushed.  Deleting a user
    deletes the projects it owns first (the cascade of the relationship
    [UserDB.projects], as the comment on [delete_user] has it). *)
Definition flush_one (e : pending) (s : Store)
  : outcome (Store * list (instance * value)) :=
  match e with
  | New (User_instance u) =>
      let u' := if is_none (user_id u)
                then mkUserDB (next_id (user_id <$> users s)) (user_name u)
                              (user_email u) (user_student_id u)
                else u in
      if user_row_ok u' && negb (existsb (user_conflicts u') (users s))
      then Returned (mkStore (users s ++ [u']) (courses s) (projects s),
                     [(User_instance u, user_id u')])
      else Raised IntegrityError
  | New (Course_instance c) =>
      let c' := if is_none (course_id c)
                then mkCourseDB (next_id (course_id <$> courses s)) (course_attrs c)
                else c in
      if negb (is_none (course_id c')) && negb (existsb (course_conflicts c') (courses s))
      then Returned (mkStore (users s) (courses s ++ [c']) (projects s),
                     [(Course_instance c, course_id c')])
      else Raised IntegrityError
  | New (Project_instance p) =>
      let p' := if is_none (project_id p)
                then mkProjectDB (next_id (project_id <$> projects s)) (project_name p)
                       (project_description p) (project_owner_id p) (project_owner p)
                else p in
      if project_row_ok p' && negb (existsb (project_conflicts p') (projects s))
      then Returned (mkStore (users s) (courses s) (projects s ++ [p']),
                     [(Project_instance p, project_id p')])
      else Raised IntegrityError
  | Dirty_project key p =>
      match select_project s key with
      | None => Raised StaleDataError
      | Some row =>
          if decide (p = row) then Returned (s, [(Project_instance p, key)])
          else if is_none (project_id p) then Raised FlushError
          else if project_row_ok p
                  && negb (existsb (project_conflicts p)
                             (filter (λ q, project_id q ≠ key) (projects s)))
          then Returned (mkStore (users s) (courses s)
                           ((λ q, if decide (project_id q = key) then p else q)
                              <$> projects s),
                         [(Project_instance p, project_id p)])
          else Raised IntegrityError
      end
  | Deleted_user u =>
      Returned (mkStore (filter (λ v, user_id v ≠ user_id u) (users s))
                        (courses s)
                        (filter (λ p, project_owner_id p ≠ user_id u) (projects s)),
                [])
  end.

Fixpoint flush (work : list pending) (s : Store) (ids : list (instance * value))
  : outcome (Store * list (instance * value)) :=
  match work with
  | [] => Returned (s, ids)
  | e :: work' =>
      match flush_one e s with
      | Returned (s', new_ids) => flush work' s' (ids ++ new_ids)
      | Raised err => Raised err
      end
  end.

(** ** The monad of the handlers: session state and exceptions *)

Definition M (A : Type) : Type := Session → Session * outcome A.

#[global] Instance M_ret : MRet M := λ A a db, (db, Returned a).

#[global] Instance M_bind : MBind M := λ A B f m db,
  match m db with
  | (db', Returned a) => f a db'
  | (db', Raised e) => (db', Raised e)
  end.

Definition raise {A : Type} (e : exn) : M A := λ db, (db, Raised e).

(** [try: body / except IntegrityError: handler]. *)
Definition try_except_IntegrityError {A : Type} (body handler : M A) : M A :=
  λ db,
  match body db with
  | (db', Raised IntegrityError) => handler db'
  | r => r
  end.

(** [db.commit()]: flush, then make the transaction permanent.  A failed
    flush rolls the transaction back in the store and leaves the pending
    objects in the session. *)
Definition db_commit : M unit := λ db,
  match flush (unit_of_work db) (transaction db) (identity_map db) with
  | Returned (s, ids) =>
      (mkSession s s [] ids (calls db ++ [Call_commit]), Returned tt)
  | Raised e =>
      (mkSession (database db) (database db) (unit_of_work db) (identity_map db)
                 (calls db ++ [Call_commit]), Raised e)
  end.

(** [db.rollback()]. *)
Definition db_rollback : M unit := λ db,
  (mkSession (database db) (database db) [] [] (calls db ++ [Call_rollback]),
   Returned tt).

(** [db.close()]. *)
Definition db_close (db : Session) : Session :=
  mkSession (database db) (database db) [] [] (calls db ++ [Call_close]).

(** [db.add(obj)]. *)
Definition db_add (obj : instance) : M unit := λ db,
  (mkSession (database db) (transaction db) (unit_of_work db ++ [New obj])
             (identity_map db) (calls db), Returned tt).

(** [db.delete(user)]. *)
Definition db_delete_user (user : UserDB) : M unit := λ db,
  (mkSession (database db) (transaction db) (unit_of_work db ++ [Deleted_user user])
             (identity_map db) (calls db), Returned tt).

(** Attribute assignment on a loaded object is instrumented by the mapper:
    the object, in its state after the assignments, is part of the unit of
    work of the session it was loaded in. *)
Definition db_modified_project (key : value) (proj : ProjectDB) : M unit := λ db,
  (mkSession (database db) (transaction db)
             (unit_of_work db ++ [Dirty_project key proj])
             (identity_map db) (calls db), Returned tt).

(** [db.get(UserDB, key)], [db.get(ProjectDB, key)]. *)
Definition db_get_user (key : value) : M (option UserDB) := λ db,
  (db, Returned (if is_none key then None else select_user (transaction db) key)).

Definition db_get_project (key : value) : M (option ProjectDB) := λ db,
  (db, Returned (if is_none key then None else select_project (transaction db) key)).

(** The primary key under which the session knows an object. *)
Definition identity_of (obj : instance) (db : Session) : option value :=
  snd <$> head (filter (λ e, e.1 = obj) (identity_map db)).

(** [db.refresh(obj)]: reload the row of a persistent object. *)
Definition db_refresh_user (user : UserDB) : M UserDB := λ db,
  match identity_of (User_instance user) db ≫= select_user (transaction db) with
  | Some row => (db, Returned row)
  | None => (db, Raised InvalidRequestError)
  end.

Definition db_refresh_course (course : CourseDB) : M CourseDB := λ db,
  match identity_of (Course_instance course) db ≫= select_course (transaction db) with
  | Some row => (db, Returned row)
  | None => (db, Raised InvalidRequestError)
  end.

Definition db_refresh_project (proj : ProjectDB) : M ProjectDB := λ db,
  match identity_of (Project_instance proj) db ≫= select_project (transaction db) with
  | Some row => (db, Returned row)
  | None => (db, Raised InvalidRequestError)
  end.

(** ** Statements the handlers execute directly *)

(** The order of [ORDER BY] on a column: [NULL] first, then integers, then
    text compared byte by byte. *)
Definition string_le (s t : string) : Prop := String_as_OT.compare s t ≠ Gt.

Definition value_le (a b : value) : Prop :=
  match a, b with
  | VNone, _ => True
  | VInt _, VNone => False
  | VInt x, VInt y => (x ≤ y)%Z
  | VInt _, VStr _ => True
  | VStr s, VStr t => string_le s t
  | VStr _, _ => False
  end.

#[global] Instance string_le_dec s t : Decision (string_le s t).
Proof. unfold string_le. apply _. Defined.

#[global] Instance value_le_dec a b : Decision (value_le a b).
Proof. destruct a, b; simpl; apply _. Defined.

Definition course_le (c d : CourseDB) : Prop := value_le (course_id c) (course_id d).

#[global] Instance course_le_dec c d : Decision (course_le c d).
Proof. unfold course_le. apply _. Defined.

(** [.order_by(CourseDB.id)]. *)
Definition order_by_course_id (rows : list CourseDB) : list CourseDB :=
  merge_sort course_le rows.

(** [.limit(limit).offset(offset)] as the default (SQLite) store evaluates
    them: a negative [LIMIT] is no upper bound, a negative [OFFSET] is zero. *)
Definition sql_offset {A : Type} (offset : Z) (rows : list A) : list A :=
  drop (Z.to_nat offset) rows.

Definition sql_limit {A : Type} (limit : Z) (rows : list A) : list A :=
  if decide (limit < 0) then rows else take (Z.to_nat limit) rows.

(** The columns of the users table. *)
Definition user_column (field : string) : bool :=
  bool_decide (field ∈ ["id"; "name"; "email"; "student_id"]).

(** [UPDATE users SET ...] on one row: a column named in [values] takes the
    value given, the others keep theirs. *)
Definition assign (values : dict) (column : string) (old : value) : value :=
  default old (values !! column).

Definition update_user_row (values : dict) (u : UserDB) : UserDB :=
  mkUserDB (assign values "id" (user_id u)) (assign values "name" (user_name u))
           (assign values "email" (user_email u))
           (assign values "student_id" (user_student_id u)).

(** [db.query(UserDB).filter(UserDB.id == user_id).update(values)]: the
    [UPDATE] is executed at once, inside the transaction, and returns the
    number of rows matched.  An empty [values] gives a statement with an empty
    [SET] clause, which the store rejects; a key that is not a column of the
    table is rejected when the statement is compiled; the constraints of the
    table are checked by the statement itself. *)
Definition query_update_users (user_id' : Z) (values : dict) : M Z := λ db,
  if decide (values = ∅) then (db, Raised OperationalError)
  else if negb (forallb user_column (fst <$> items values))
  then (db, Raised CompileError)
  else
    let s := transaction db in
    let matched := filter (λ u, user_id u = VInt user_id') (users s) in
    let others := filter (λ u, user_id u ≠ VInt user_id') (users s) in
    let updated := update_user_row values <$> matched in
    if forallb user_row_ok updated
       && negb (existsb (λ u, existsb (user_conflicts u) others) updated)
    then
      (mkSession (database db)
         (mkStore ((λ u, if decide (user_id u = VInt user_id')
                         then update_user_row values u else u) <$> users s)
                  (courses s) (projects s))
         (unit_of_work db) (identity_map db) (calls db),
       Returned (Z.of_nat (length matched)))
    else (db, Raised IntegrityError).

(** ** Attribute access on a project object *)

(** [hasattr(proj, field)]: the mapped attributes of [ProjectDB]. *)
Definition project_hasattr (field : string) : bool :=
  bool_decide (field ∈ ["id"; "name"; "description"; "owner_id"; "owner"]).

(** [setattr(proj, field, value)].  The relationship attribute [owner]
    accepts [None] and rejects any other JSON scalar; a name that is not a
    mapped attribute becomes a plain attribute of the Python object, which no
    column reflects. *)
Definition project_setattr (proj : ProjectDB) (field : string) (v : value)
  : outcome ProjectDB :=
  if decide (field = "id") then
    Returned (mkProjectDB v (project_name proj) (project_description proj)
                (project_owner_id proj) (project_owner proj))
  else if decide (field = "name") then
    Returned (mkProjectDB (project_id proj) v (project_description proj)
                (project_owner_id proj) (project_owner proj))
  else if decide (field = "description") then
    Returned (mkProjectDB (project_id proj) (project_name proj) v
                (project_owner_id proj) (project_owner proj))
  else if decide (field = "owner_id") then
    Returned (mkProjectDB (project_id proj) (project_name proj)
                (project_description proj) v (project_owner proj))
  else if decide (field = "owner") then
    match v with
    | VNone => Returned (mkProjectDB (project_id proj) (project_name proj)
                           (project_description proj) (project_owner_id proj)
                           Owner_none)
    | _ => Raised AttributeError
    end
  else Returned proj.

(** [for field, value in d.items(): body]. *)
Fixpoint for_each {S : Type} (body : S → string → value → outcome S)
    (its : list (string * value)) (s : S) : outcome S :=
  match its with
  | [] => Returned s
  | (field, v) :: rest =>
      match body s field v with
      | Returned s' => for_each body rest s'
      | Raised e => Raised e
      end
  end.

(** A computation that does not touch the session. *)
Definition pure {A : Type} (r : outcome A) : M A := λ db, (db, r).

(** The constructor [UserDB] called with keyword arguments. *)
Definition UserDB_init (kwargs : dict) : UserDB :=
  mkUserDB (assign kwargs "id" VNone) (assign kwargs "name" VNone)
           (assign kwargs "email" VNone) (assign kwargs "student_id" VNone).

(** ** app/main.py *)

Definition commit_or_rollback (error_msg : string) : M unit :=
  try_except_IntegrityError db_commit
    (db_rollback;; raise (HTTPException 409 error_msg)).

Definition create_course (course : CourseCreate) : M CourseDB :=
  let db_course := mkCourseDB VNone (course_model_dump course) in
  db_add (Course_instance db_course);;
  commit_or_rollback "Course already exists";;
  db_refresh_course db_course.

Definition list_courses (limit offset : option Z) : M (list CourseDB) := λ db,
  let limit := default 10 limit in
  let offset := default 0 offset in
  (db, Returned (sql_limit limit
                   (sql_offset offset
                      (order_by_course_id (courses (transaction db)))))).

Definition create_project (project : ProjectCreate) : M ProjectDB :=
  user ← db_get_user (VInt (pc_owner_id project));
  match user with
  | None => raise (HTTPException 404 "User not found")
  | Some _ =>
      let proj := mkProjectDB VNone (VStr (pc_name project))
                    (optional_str (pc_description project))
                    (VInt (pc_owner_id project)) Owner_unloaded in
      db_add (Project_instance proj);;
      commit_or_rollback "Project creation failed";;
      db_refresh_project proj
  end.

Definition update_project (project_id' : Z) (project : ProjectCreate) : M ProjectDB :=
  proj ← db_get_project (VInt project_id');
  match proj with
  | None => raise (HTTPException 404 "Project not found")
  | Some proj =>
      owner ← db_get_user (VInt (pc_owner_id project));
      match owner with
      | None => raise (HTTPException 404 "Owner user not found")
      | Some _ =>
          proj' ← pure (for_each project_setattr
                          (items (project_model_dump project)) proj);
          db_modified_project (VInt project_id') proj';;
          commit_or_rollback "Project update failed";;
          db_refresh_project proj'
      end
  end.

Definition patch_project (project_id' : Z) (partial_project : dict) : M ProjectDB :=
  proj ← db_get_project (VInt project_id');
  match proj with
  | None => raise (HTTPException 404 "Project not found")
  | Some proj =>
      match partial_project !! "owner_id" with
      | Some owner_id' =>
          owner ← db_get_user owner_id';
          match owner with
          | None => raise (HTTPException 404 "Owner user not found")
          | Some _ => mret ()
          end
      | None => mret ()
      end;;
      proj' ← pure (for_each
                      (λ p field v, if project_hasattr field
                                    then project_setattr p field v
                                    else Returned p)
                      (items partial_project) proj);
      db_modified_project (VInt project_id') proj';;
      commit_or_rollback "Project partial update failed";;
      db_refresh_project proj'
  end.

Definition get_user_projects (user_id' : Z) : M (list ProjectDB) := λ db,
  (db, Returned (filter (λ p, project_owner_id p = VInt user_id')
                   (projects (transaction db)))).

Definition create_user_project (user_id' : Z) (project : ProjectCreateForUser)
  : M ProjectDB :=
  user ← db_get_user (VInt user_id');
  match user with
  | None => raise (HTTPException 404 "User not found")
  | Some _ =>
      let proj := mkProjectDB VNone (VStr (pcu_name project))
                    (optional_str (pcu_description project))
                    (VInt user_id') Owner_unloaded in
      db_add (Project_instance proj);;
      commit_or_rollback "Project creation failed";;
      db_refresh_project proj
  end.

Definition add_user (payload : UserCreate) : M UserDB :=
  let user := UserDB_init (user_model_dump payload) in
  db_add (User_instance user);;
  try_except_IntegrityError
    (db_commit;; db_refresh_user user)
    (db_rollback;; raise (HTTPException 409 "User already exists")).

(** The [Response] object [delete_user] returns. *)
Record Response : Type := mkResponse {
  response_status_code : Z;
  response_body : string }.

Definition delete_user (user_id' : Z) : M Response :=
  user ← db_get_user (VInt user_id');
  match user with
  | None => raise (HTTPException 404 "User not found")
  | Some user =>
      db_delete_user user;;
      db_commit;;
      mret (mkResponse 204 "")
  end.

Definition update_user (user_id' : Z) (updated_user : UserCreate) : M (option UserDB) :=
  result ← query_update_users user_id' (user_model_dump updated_user);
  if decide (result = 0) then raise (HTTPException 404 "User not found")
  else
    commit_or_rollback "User update failed (duplicate email or student_id)";;
    db_get_user (VInt user_id').

Definition patch_user (user_id' : Z) (partial_user : dict) : M (option UserDB) :=
  result ← query_update_users user_id' partial_user;
  if decide (result = 0) then raise (HTTPException 404 "User not found")
  else
    commit_or_rollback "User partial update failed";;
    db_get_user (VInt user_id').

(** ** app/main.py: the handlers that only read *)

(** [health]. *)
Definition health : dict := {[ "status" := VStr "ok" ]}.

Definition user_le (u v : UserDB) : Prop := value_le (user_id u) (user_id v).

#[global] Instance user_le_dec u v : Decision (user_le u v).
Proof. unfold user_le. apply _. Defined.

Definition project_le (p q : ProjectDB) : Prop :=
  value_le (project_id p) (project_id q).

#[global] Instance project_le_dec p q : Decision (project_le p q).
Proof. unfold project_le. apply _. Defined.

(** [.order_by(UserDB.id)], [.order_by(ProjectDB.id)]. *)
Definition order_by_user_id (rows : list UserDB) : list UserDB :=
  merge_sort user_le rows.

Definition order_by_project_id (rows : list ProjectDB) : list ProjectDB :=
  merge_sort project_le rows.

Definition list_projects : M (list ProjectDB) := λ db,
  (db, Returned (order_by_project_id (projects (transaction db)))).

(** A project object whose [owner] attribute was loaded with it. *)
Record ProjectWithOwner : Type := mkProjectWithOwner {
  loaded_project : ProjectDB;
  loaded_owner : option UserDB }.

(** [.scalar_one_or_none()]: no row is [None], one row is that row, more
    than one row is an error ([MultipleResultsFound], an
    [InvalidRequestError]). *)
Definition scalar_one_or_none {A : Type} (rows : list A) : outcome (option A) :=
  match rows with
  | [] => Returned None
  | [row] => Returned (Some row)
  | _ => Raised InvalidRequestError
  end.

(** [.options(selectinload(ProjectDB.owner))]: the owner of each project
    selected is fetched by the value of its foreign key. *)
Definition selectinload_owner (s : Store) (p : ProjectDB) : ProjectWithOwner :=
  mkProjectWithOwner p
    (if is_none (project_owner_id p) then None
     else select_user s (project_owner_id p)).

Definition get_project_with_owner (project_id' : Z) : M ProjectWithOwner :=
  proj ← (λ db,
            (db, scalar_one_or_none
                   (selectinload_owner (transaction db)
                      <$> filter (λ p, project_id p = VInt project_id')
                            (projects (transaction db)))));
  match proj with
  | None => raise (HTTPException 404 "Project not found")
  | Some proj => mret proj
  end.

Definition list_users : M (list UserDB) := λ db,
  (db, Returned (order_by_user_id (users (transaction db)))).

Definition get_user (user_id' : Z) : M UserDB :=
  user ← db_get_user (VInt user_id');
  match user with
  | None => raise (HTTPException 404 "User not found")
  | Some user => mret user
  end.

(** ** Serving a request

    [get_db] opens a session for the request and closes it when the handler
    is done, whether it returned or raised; what is left of the request is
    the committed store and the outcome of the handler. *)
Definition request {A : Type} (handler : M A) (store : Store) : Store * outcome A :=
  let '(db, r) := handler (SessionLocal store) in
  (database (db_close db), r).

(** The status line of the response: the status declared on the route when
    the handler returns, the status of an [HTTPException], 500 for any other
    exception. *)
Definition status_code_of {A : Type} (declared : Z) (r : outcome A) : Z :=
  match r with
  | Returned _ => declared
  | Raised (HTTPException code _) => code
  | Raised _ => 500
  end.

(** ** app/database.py: the connection retry at import time

    The store is a separate service that is reachable or not each time the
    process tries to connect: [connect k] tells whether the [k]-th connection
    attempt of the process succeeds.  The process records what it does. *)

Module Database.

(** The environment variables the module reads, as [int] and [float] read
    them; [None] when a variable is not set. *)
Record Environ : Type := mkEnviron {
  DB_RETRIES : option Z;
  DB_RETRY_DELAY : option Q }.

Definition RETRIES (env : Environ) : Z := default 10 (DB_RETRIES env).
Definition DELAY (env : Environ) : Q := default (3 # 2)%Q (DB_RETRY_DELAY env).

Inductive event : Type :=
  | Create_engine
  | Connect (succeeded : bool)
  | Sleep (seconds : Q).

(** [attempts]: connection attempts made so far; [engine]: whether the name
    [engine] is bound; [log]: what the process did, in order. *)
Record Process : Type := mkProcess {
  attempts : nat;
  engine : bool;
  log : list event }.

Definition initial : Process := mkProcess 0 false [].

(** [engine = create_engine(...)]: builds the engine, does not connect. *)
Definition create_engine (p : Process) : Process :=
  mkProcess (attempts p) true (log p ++ [Create_engine]).

(** [with engine.connect(): pass]: raises [OperationalError] when the store
    is not reachable. *)
Definition engine_connect (connect : nat → bool) (p : Process) : Process * outcome () :=
  let ok := connect (attempts p) in
  (mkProcess (S (attempts p)) (engine p) (log p ++ [Connect ok]),
   if ok then Returned () else Raised OperationalError).

(** [time.sleep(DELAY)]. *)
Definition time_sleep (seconds : Q) (p : Process) : Process :=
  mkProcess (attempts p) (engine p) (log p ++ [Sleep seconds]).

(** [for _ in range(iterations): try: ...; break / except OperationalError:
    time.sleep(DELAY)]. *)
Fixpoint retry_loop (iterations : nat) (delay : Q) (connect : nat → bool)
    (p : Process) : Process * outcome () :=
  match iterations with
  | O => (p, Returned ())
  | S n =>
      match engine_connect connect (create_engine p) with
      | (p', Returned _) => (p', Returned ())
      | (p', Raised OperationalError) => retry_loop n delay connect (time_sleep delay p')
      | (p', Raised e) => (p', Raised e)
      end
  end.

(** Importing [app.database]: the loop, then
    [SessionLocal = sessionmaker(bind=engine, ...)], which needs the name
    [engine] to be bound. *)
Definition import_database (env : Environ) (connect : nat → bool) (p : Process)
  : Process * outcome () :=
  match retry_loop (Z.to_nat (RETRIES env)) (DELAY env) connect p with
  | (p', Returned _) =>
      if engine p' then (p', Returned ()) else (p', Raised NameError)
  | r => r
  end.

(** [lifespan] of [app/main.py] up to its [yield]:
    [Base.metadata.create_all(bind=engine)] connects to the store. *)
Definition lifespan (connect : nat → bool) (p : Process) : Process * outcome () :=
  engine_connect connect p.

(** Process start: import the modules, run the start-up part of [lifespan];
    requests are served once this has returned. *)
Definition startup (env : Environ) (connect : nat → bool) : Process * outcome () :=
  match import_database env connect initial with
  | (p, Returned _) => lifespan connect p
  | r => r
  end.




End Database.

(** ** Vocabulary of the statements *)

(** The handlers of [app/main.py] that end their unit of work through
    [commit_or_rollback], each with the message it passes. *)
Inductive uses_commit_or_rollback : ∀ {A : Type}, M A → string → Prop :=
  | uses_create_course course :
      uses_commit_or_rollback (create_course course) "Course already exists"
  | uses_create_project project :
      uses_commit_or_rollback (create_project project) "Project creation failed"
  | uses_update_project project_id' project :
      uses_commit_or_rollback (update_project project_id' project)
        "Project update failed"
  | uses_patch_project project_id' partial_project :
      uses_commit_or_rollback (patch_project project_id' partial_project)
        "Project partial update failed"
  | uses_create_user_project user_id' project :
      uses_commit_or_rollback (create_user_project user_id' project)
        "Project creation failed"
  | uses_update_user user_id' updated_user :
      uses_commit_or_rollback (update_user user_id' updated_user)
        "User update failed (duplicate email or student_id)"
  | uses_patch_user user_id' partial_user :
      uses_commit_or_rollback (patch_user user_id' partial_user)
        "User partial update failed".

(** What the assignments of a PATCH on a project amount to, read off the
    payload: every mapped attribute named in the payload takes the value
    given, the others keep theirs. *)
Definition patched (d : dict) (proj : ProjectDB) : outcome ProjectDB :=
  match d !! "owner" with
  | Some VNone =>
      Returned (mkProjectDB (assign d "id" (project_id proj))
                  (assign d "name" (project_name proj))
                  (assign d "description" (project_description proj))
                  (assign d "owner_id" (project_owner_id proj)) Owner_none)
  | Some _ => Raised AttributeError
  | None =>
      Returned (mkProjectDB (assign d "id" (project_id proj))
                  (assign d "name" (project_name proj))
                  (assign d "description" (project_description proj))
                  (assign d "owner_id" (project_owner_id proj)) (project_owner proj))
  end.

(** The store after the rows of project [key] were replaced by [p]. *)
Definition replace_project (key : value) (p : ProjectDB) (s : Store) : Store :=
  mkStore (users s) (courses s)
          ((λ q, if decide (project_id q = key) then p else q) <$> projects s).

(** The store after user [key] and the projects it owns were deleted. *)
Definition without_user (key : value) (s : Store) : Store :=
  mkStore (filter (λ u, user_id u ≠ key) (users s)) (courses s)
          (filter (λ p, project_owner_id p ≠ key) (projects s)).

(** The payload of a PATCH names an owner that is no stored user. *)
Definition owner_missing (s : Store) (d : dict) : bool :=
  match d !! "owner_id" with
  | Some owner_id' => is_none owner_id' || bool_decide (select_user s owner_id' = None)
  | None => false
  end.

(** Every handler of [app/main.py] that is given a session. *)
Inductive endpoint : ∀ {A : Type}, M A → Prop :=
  | endpoint_create_course course : endpoint (create_course course)
  | endpoint_list_courses limit offset : endpoint (list_courses limit offset)
  | endpoint_create_project project : endpoint (create_project project)
  | endpoint_list_projects : endpoint list_projects
  | endpoint_get_project_with_owner project_id' :
      endpoint (get_project_with_owner project_id')
  | endpoint_update_project project_id' project :
      endpoint (update_project project_id' project)
  | endpoint_patch_project project_id' partial_project :
      endpoint (patch_project project_id' partial_project)
  | endpoint_get_user_projects user_id' : endpoint (get_user_projects user_id')
  | endpoint_create_user_project user_id' project :
      endpoint (create_user_project user_id' project)
  | endpoint_list_users : endpoint list_users
  | endpoint_get_user user_id' : endpoint (get_user user_id')
  | endpoint_add_user payload : endpoint (add_user payload)
  | endpoint_delete_user user_id' : endpoint (delete_user user_id')
  | endpoint_update_user user_id' updated_user :
      endpoint (update_user user_id' updated_user)
  | endpoint_patch_user user_id' partial_user :
      endpoint (patch_user user_id' partial_user).


(** The constraints of the tables as a property of a store: required
    columns are set, keys and unique columns do not repeat. *)
Definition users_ok (l : list UserDB) : Prop :=
  Forall (λ u, user_row_ok u = true) l
  ∧ NoDup (user_id <$> l)
  ∧ NoDup (user_email <$> l)
  ∧ NoDup (user_student_id <$> l).

Definition projects_ok (l : list ProjectDB) : Prop :=
  Forall (λ p, project_row_ok p = true) l ∧ NoDup (project_id <$> l).

Definition courses_ok (l : list CourseDB) : Prop :=
  Forall (λ c, is_none (course_id c) = false) l
  ∧ NoDup (course_id <$> l)
  ∧ NoDup (course_attrs <$> l).

Definition store_ok (s : Store) : Prop :=
  users_ok (users s) ∧ projects_ok (projects s) ∧ courses_ok (courses s).

(** Every project names a stored user as its owner. *)
Definition owners_exist (s : Store) : Prop :=
  Forall (λ p, Exists (λ u, user_id u = project_owner_id p) (users s)) (projects s).

(** The user a POST /api/users creates on a store, and the project a POST
    on projects creates. *)
Definition created_user (payload : UserCreate) (s : Store) : UserDB :=
  mkUserDB (next_id (user_id <$> users s)) (VStr (uc_name payload))
           (VStr (uc_email payload)) (VStr (uc_student_id payload)).

Definition created_project (project : ProjectCreate) (s : Store) : ProjectDB :=
  mkProjectDB (next_id (project_id <$> projects s)) (VStr (pc_name project))
              (optional_str (pc_description project))
              (VInt (pc_owner_id project)) Owner_unloaded.

Definition created_course (course : CourseCreate) (s : Store) : CourseDB :=
  mkCourseDB (next_id (course_id <$> courses s)) (course_model_dump course).

(** The store after the update statement of [update_user] and [patch_user]
    was applied to user [key]. *)
Definition with_user_updated (key : value) (values : dict) (s : Store) : Store :=
  mkStore ((λ u, if decide (user_id u = key) then update_user_row values u else u)
             <$> users s)
          (courses s) (projects s).

(** The checks the update statement of [update_user] and [patch_user] makes
    on the rows it writes. *)
Definition user_update_ok (key : value) (values : dict) (s : Store) : bool :=
  let matched := filter (λ u, user_id u = key) (users s) in
  let others := filter (λ u, user_id u ≠ key) (users s) in
  let updated := update_user_row values <$> matched in
  forallb user_row_ok updated
  && negb (existsb (λ u, existsb (user_conflicts u) others) updated).

(** What one request can do to the store: nothing, or one of six writes,
    each with the checks that were passed when it was made. *)
Inductive store_step (s : Store) : Store → Prop :=
  | step_none : store_step s s
  | step_add_user u :
      user_row_ok u = true →
      existsb (user_conflicts u) (users s) = false →
      store_step s (mkStore (users s ++ [u]) (courses s) (projects s))
  | step_add_course c :
      is_none (course_id c) = false →
      existsb (course_conflicts c) (courses s) = false →
      store_step s (mkStore (users s) (courses s ++ [c]) (projects s))
  | step_add_project p :
      project_row_ok p = true →
      existsb (project_conflicts p) (projects s) = false →
      Exists (λ u, user_id u = project_owner_id p) (users s) →
      store_step s (mkStore (users s) (courses s) (projects s ++ [p]))
  | step_replace_project key p row :
      select_project s key = Some row →
      project_row_ok p = true →
      existsb (project_conflicts p) (filter (λ q, project_id q ≠ key) (projects s))
        = false →
      Exists (λ u, user_id u = project_owner_id p) (users s)
      ∨ project_owner_id p = project_owner_id row →
      store_step s (replace_project key p s)
  | step_without_user key : store_step s (without_user key s)
  | step_update_user key values :
      user_update_ok key values s = true →
      (∀ field, is_Some (values !! field) → user_column field = true) →
      store_step s (with_user_updated key values s).

(** ** Example data *)

Definition ann : UserDB := mkUserDB (VInt 1) (VStr "Ann") (VStr "a@x.com") (VStr "S1").
Definition bob : UserDB := mkUserDB (VInt 2) (VStr "Bob") (VStr "b@x.com") (VStr "S2").
Definition project_a : ProjectDB :=
  mkProjectDB (VInt 1) (VStr "A") (VStr "B") (VInt 1) Owner_unloaded.
Definition project_x : ProjectDB :=
  mkProjectDB (VInt 2) (VStr "X") VNone (VInt 2) Owner_unloaded.
Definition project_y : ProjectDB :=
  mkProjectDB (VInt 3) (VStr "Y") VNone (VInt 1) Owner_unloaded.

Definition example_store : Store :=
  mkStore [ann; bob] [] [project_a; project_x; project_y].

Definition course_store : Store :=
  mkStore [] [mkCourseDB (VInt 1) {[ "code" := VStr "CS101" ]}] [].





(** * Properties *)

(** ** Selecting rows *)

Lemma head_filter_Some {A : Type} (P : A → Prop) `{!∀ x, Decision (P x)}
    (l : list A) (x : A) :
  head (filter P l) = Some x → P x ∧ x ∈ l.
Proof.
  intros Hx. apply head_Some_elem_of in Hx.
  by apply list_elem_of_filter in Hx.
Qed.

Lemma head_filter_None {A : Type} (P : A → Prop) `{!∀ x, Decision (P x)}
    (l : list A) :
  head (filter P l) = None ↔ ∀ x, x ∈ l → ¬ P x.
Proof.
  rewrite head_None. split.
  - intros Hnil x Hx HP. by eapply filter_nil_not_elem_of.
  - intros Hall. induction l as [|a l IH]; [done|].
    rewrite filter_cons_False by (apply Hall; left).
    apply IH. intros x Hx. apply Hall. by right.
Qed.

Lemma select_user_Some (s : Store) (key : value) (u : UserDB) :
  select_user s key = Some u → user_id u = key ∧ u ∈ users s.
Proof. apply (head_filter_Some (λ u, user_id u = key)). Qed.

Lemma select_project_Some (s : Store) (key : value) (p : ProjectDB) :
  select_project s key = Some p → project_id p = key ∧ p ∈ projects s.
Proof. apply (head_filter_Some (λ p, project_id p = key)). Qed.

(** ** Running a handler *)

Ltac run :=
  unfold request, SessionLocal, commit_or_rollback, try_except_IntegrityError,
    db_commit, db_rollback, db_close, db_add, db_delete_user,
    db_modified_project, db_get_user, db_get_project, raise, pure,
    mbind, M_bind, mret, M_ret; cbn.




(** An id without a user record: 200 and the empty list. *)
Example get_user_projects_no_such_user :
  request (get_user_projects 999) (mkStore [] [] []) = (mkStore [] [] [], Returned []).
Proof. reflexivity. Qed.



(** ** Creating a user *)

Lemma UserDB_init_model_dump (payload : UserCreate) :
  UserDB_init (user_model_dump payload)
  = mkUserDB VNone (VStr (uc_name payload)) (VStr (uc_email payload))
             (VStr (uc_student_id payload)).
Proof.
  unfold UserDB_init, user_model_dump, assign.
  by simplify_map_eq.
Qed.

Lemma existsb_elem_of {A : Type} (f : A → bool) (l : list A) (x : A) :
  x ∈ l → f x = true → existsb f l = true.
Proof.
  intros Hx Hf. apply existsb_exists. exists x. split; [|done].
  by apply list_elem_of_In.
Qed.

(** C5: a POST /api/users whose email or student_id is that of a stored user
    is answered 409 "User already exists", and the store, the stored user
    included, is left as it was. *)
Theorem add_user_duplicate (payload : UserCreate) (store : Store) (u : UserDB) :
  u ∈ users store →
  user_email u = VStr (uc_email payload)
  ∨ user_student_id u = VStr (uc_student_id payload) →
  request (add_user payload) store
    = (store, Raised (HTTPException 409 "User already exists"))
  ∧ status_code_of 201 (request (add_user payload) store).2 = 409
  ∧ u ∈ users (request (add_user payload) store).1.
Proof.
  intros Hu Hdup.
  assert (request (add_user payload) store
          = (store, Raised (HTTPException 409 "User already exists"))) as ->.
  { unfold add_user. rewrite UserDB_init_model_dump. run.
    match goal with
    | |- context [existsb ?f (users store)] =>
        rewrite (existsb_elem_of f (users store) u Hu)
    end.
    - by rewrite andb_false_r.
    - unfold user_conflicts. cbn.
      destruct Hdup as [<- | <-].
      + rewrite (bool_decide_eq_true_2 (user_email u = _)) by done.
        by rewrite orb_true_r.
      + rewrite (bool_decide_eq_true_2 (user_student_id u = _)) by done.
        by rewrite orb_true_r. }
  done.
Qed.

Lemma add_user_duplicate_witness :
  request (add_user (mkUserCreate "Nan" "a@x.com" "S9")) example_store
    = (example_store, Raised (HTTPException 409 "User already exists")).
Proof.
  apply (add_user_duplicate (mkUserCreate "Nan" "a@x.com" "S9") example_store ann).
  - left.
  - left. reflexivity.
Defined.

(** ** The assignments of a PATCH or PUT on a project *)

Lemma for_each_setattr_list (l : list (string * value)) (proj : ProjectDB) :
  NoDup l.*1 →
  for_each project_setattr l proj = patched (list_to_map l) proj.
Proof.
  revert proj. induction l as [|[k v] l IH]; intros proj Hnd.
  - by destruct proj.
  - apply NoDup_cons in Hnd as [Hk Hnd]. cbn [for_each].
    rewrite list_to_map_cons.
    apply not_elem_of_list_to_map_1 in Hk. cbn in Hk.
    set (m := list_to_map l : dict) in *.
    unfold project_setattr.
    repeat case_decide; subst; try (destruct v); rewrite ?IH by done;
      unfold patched, assign; cbn;
      rewrite ?lookup_insert_eq, ?lookup_insert_ne, ?Hk by done; cbn;
      try done; by destruct (m !! "owner") as [[]|].
Qed.

Lemma for_each_setattr_items (d : dict) (proj : ProjectDB) :
  for_each project_setattr (items d) proj = patched d proj.
Proof.
  unfold items. rewrite for_each_setattr_list by apply NoDup_fst_map_to_list.
  by rewrite list_to_map_to_list.
Qed.

Lemma for_each_ext {S : Type} (f g : S → string → value → outcome S)
    (l : list (string * value)) (s : S) :
  (∀ s k v, f s k v = g s k v) → for_each f l s = for_each g l s.
Proof.
  intros Hfg. revert s. induction l as [|[k v] l IH]; intros s; [done|].
  cbn. rewrite Hfg. destruct (g s k v); [apply IH | done].
Qed.

(** A key that is not a mapped attribute is skipped by the guard of
    [patch_project]; assigning it would not touch a column either. *)
Lemma hasattr_guard (p : ProjectDB) (field : string) (v : value) :
  (if project_hasattr field then project_setattr p field v else Returned p)
  = project_setattr p field v.
Proof.
  unfold project_hasattr. case_bool_decide as Hin; [done|].
  unfold project_setattr.
  repeat case_decide; subst; try done; exfalso; apply Hin; set_solver.
Qed.

Lemma patch_loop_items (d : dict) (proj : ProjectDB) :
  for_each (λ p field v, if project_hasattr field
                         then project_setattr p field v else Returned p)
    (items d) proj
  = patched d proj.
Proof.
  rewrite <- for_each_setattr_items.
  apply for_each_ext. intros. apply hasattr_guard.
Qed.

(** ** Flushing a modified project *)

Lemma select_replaced (key : value) (p row : ProjectDB) (s : Store) :
  select_project s key = Some row →
  existsb (project_conflicts p) (filter (λ q, project_id q ≠ key) (projects s)) = false →
  select_project (replace_project key p s) (project_id p) = Some p.
Proof.
  unfold select_project, replace_project. cbn.
  induction (projects s) as [|q l IH]; [done|].
  intros Hsel Hex. cbn [fmap list_fmap]. case_decide as Hq.
  - by rewrite filter_cons_True.
  - rewrite filter_cons_False in Hsel by done.
    rewrite filter_cons_True in Hex by done. cbn in Hex.
    apply orb_false_iff in Hex as [Hpq Hex].
    unfold project_conflicts in Hpq. apply bool_decide_eq_false in Hpq.
    rewrite filter_cons_False by congruence. by apply IH.
Qed.

Lemma identity_of_singleton (obj : instance) (key : value) (s1 s2 : Store)
    (work : list pending) (log : list session_call) :
  identity_of obj (mkSession s1 s2 work [(obj, key)] log) = Some key.
Proof.
  unfold identity_of. cbn [identity_map]. by rewrite filter_cons_True.
Qed.

(** The unit of work of a handler that modified one loaded project: the
    four ways it can end. *)
Lemma modified_project_run (key : value) (p row : ProjectDB) (store : Store)
    (error_msg : string) :
  select_project store key = Some row →
  (db_modified_project key p;; commit_or_rollback error_msg;; db_refresh_project p)
    (SessionLocal store)
  = if decide (p = row)
    then (mkSession store store [] [(Project_instance p, key)] [Call_commit],
          Returned p)
    else if is_none (project_id p)
    then (mkSession store store [Dirty_project key p] [] [Call_commit],
          Raised FlushError)
    else if project_row_ok p
            && negb (existsb (project_conflicts p)
                       (filter (λ q, project_id q ≠ key) (projects store)))
    then (mkSession (replace_project key p store) (replace_project key p store) []
                    [(Project_instance p, project_id p)] [Call_commit],
          Returned p)
    else (mkSession store store [] [] [Call_commit; Call_rollback],
          Raised (HTTPException 409 error_msg)).
Proof.
  intros Hsel. run. rewrite Hsel.
  case_decide as Hp.
  - cbn. unfold db_refresh_project. rewrite identity_of_singleton. cbn.
    subst p. by rewrite Hsel.
  - destruct (is_none (project_id p)) eqn:Hid; [done|].
    destruct (project_row_ok p && _) eqn:Hok; [|done].
    cbn. unfold db_refresh_project. rewrite identity_of_singleton. cbn.
    apply andb_true_iff in Hok as [_ Hex]. apply negb_true_iff in Hex.
    fold (replace_project key p store).
    by rewrite (select_replaced key p row store Hsel Hex).
Qed.

(** ** PATCH and PUT on a project, step by step *)

Lemma bind_run {A B : Type} (m : M A) (f : A → M B) (db : Session) :
  (m ≫= f) db
  = match m db with
    | (db', Returned a) => f a db'
    | (db', Raised e) => (db', Raised e)
    end.
Proof. done. Qed.

Lemma patch_project_run (project_id' : Z) (d : dict) (store : Store)
    (proj : ProjectDB) :
  select_project store (VInt project_id') = Some proj →
  patch_project project_id' d (SessionLocal store)
  = if owner_missing store d
    then (SessionLocal store, Raised (HTTPException 404 "Owner user not found"))
    else match patched d proj with
         | Raised e => (SessionLocal store, Raised e)
         | Returned proj' =>
             (db_modified_project (VInt project_id') proj';;
              commit_or_rollback "Project partial update failed";;
              db_refresh_project proj') (SessionLocal store)
         end.
Proof.
  intros Hsel. unfold patch_project, owner_missing.
  rewrite bind_run. unfold db_get_project at 1. cbn [transaction SessionLocal is_none].
  rewrite Hsel. rewrite bind_run.
  destruct (d !! "owner_id") as [o|].
  - rewrite bind_run. unfold db_get_user at 1. cbn [transaction SessionLocal].
    destruct (is_none o); [done|]. cbn [orb].
    case_bool_decide as Ho.
    + by rewrite Ho.
    + destruct (select_user store o); [|done].
      unfold mret at 1, M_ret at 1. rewrite bind_run. unfold pure at 1.
      rewrite patch_loop_items. by destruct (patched d proj).
  - unfold mret at 1, M_ret at 1. rewrite bind_run. unfold pure at 1.
    rewrite patch_loop_items. by destruct (patched d proj).
Qed.

Lemma patched_model_dump (project : ProjectCreate) (proj : ProjectDB) :
  patched (project_model_dump project) proj
  = Returned (mkProjectDB (project_id proj) (VStr (pc_name project))
                (optional_str (pc_description project))
                (VInt (pc_owner_id project)) (project_owner proj)).
Proof.
  unfold patched, project_model_dump, assign. by simplify_map_eq.
Qed.

Lemma update_project_run (project_id' : Z) (project : ProjectCreate) (store : Store)
    (proj : ProjectDB) (owner : UserDB) :
  select_project store (VInt project_id') = Some proj →
  select_user store (VInt (pc_owner_id project)) = Some owner →
  update_project project_id' project (SessionLocal store)
  = (db_modified_project (VInt project_id')
       (mkProjectDB (project_id proj) (VStr (pc_name project))
          (optional_str (pc_description project))
          (VInt (pc_owner_id project)) (project_owner proj));;
     commit_or_rollback "Project update failed";;
     db_refresh_project
       (mkProjectDB (project_id proj) (VStr (pc_name project))
          (optional_str (pc_description project))
          (VInt (pc_owner_id project)) (project_owner proj))) (SessionLocal store).
Proof.
  intros Hsel Howner. unfold update_project.
  rewrite bind_run. unfold db_get_project at 1. cbn [transaction SessionLocal is_none].
  rewrite Hsel. rewrite bind_run. unfold db_get_user at 1.
  cbn [transaction SessionLocal is_none]. rewrite Howner.
  rewrite bind_run. unfold pure at 1.
  by rewrite for_each_setattr_items, patched_model_dump.
Qed.

Lemma no_conflict_same_key (key : value) (p : ProjectDB) (l : list ProjectDB) :
  project_id p = key →
  existsb (project_conflicts p) (filter (λ q, project_id q ≠ key) l) = false.
Proof.
  intros Hp. destruct (existsb _ _) eqn:Hex; [|done].
  apply existsb_exists in Hex as (q & Hq & Hpq).
  apply list_elem_of_In, list_elem_of_filter in Hq as [Hq _].
  unfold project_conflicts in Hpq. apply bool_decide_eq_true in Hpq. congruence.
Qed.

Lemma request_run {A : Type} (handler : M A) (store : Store) :
  request handler store
  = (database (handler (SessionLocal store)).1, (handler (SessionLocal store)).2).
Proof. unfold request. by destruct (handler (SessionLocal store)). Qed.

(** The outcomes of a PATCH on a stored project. *)
Lemma patch_project_request (project_id' : Z) (d : dict) (store : Store)
    (proj : ProjectDB) :
  select_project store (VInt project_id') = Some proj →
  request (patch_project project_id' d) store
  = if owner_missing store d
    then (store, Raised (HTTPException 404 "Owner user not found"))
    else match patched d proj with
         | Raised e => (store, Raised e)
         | Returned proj' =>
             if decide (proj' = proj) then (store, Returned proj')
             else if is_none (project_id proj') then (store, Raised FlushError)
             else if project_row_ok proj'
                     && negb (existsb (project_conflicts proj')
                                (filter (λ q, project_id q ≠ VInt project_id')
                                   (projects store)))
             then (replace_project (VInt project_id') proj' store, Returned proj')
             else (store, Raised (HTTPException 409 "Project partial update failed"))
         end.
Proof.
  intros Hsel. rewrite request_run, (patch_project_run _ _ _ _ Hsel).
  destruct (owner_missing store d); [done|].
  destruct (patched d proj) as [proj'|e]; [|done].
  rewrite (modified_project_run _ _ _ _ _ Hsel).
  by repeat case_match.
Qed.

(** The outcomes of a PUT on a stored project with a stored owner. *)
Lemma update_project_request (project_id' : Z) (project : ProjectCreate)
    (store : Store) (proj : ProjectDB) (owner : UserDB) :
  select_project store (VInt project_id') = Some proj →
  select_user store (VInt (pc_owner_id project)) = Some owner →
  let proj' := mkProjectDB (project_id proj) (VStr (pc_name project))
                 (optional_str (pc_description project))
                 (VInt (pc_owner_id project)) (project_owner proj) in
  request (update_project project_id' project) store
  = if decide (proj' = proj) then (store, Returned proj')
    else if project_row_ok proj'
    then (replace_project (VInt project_id') proj' store, Returned proj')
    else (store, Raised (HTTPException 409 "Project update failed")).
Proof.
  intros Hsel Howner proj'.
  rewrite request_run, (update_project_run _ _ _ _ _ Hsel Howner).
  fold proj'. rewrite (modified_project_run _ _ _ _ _ Hsel).
  destruct (select_project_Some _ _ _ Hsel) as [Hid _].
  rewrite (no_conflict_same_key (VInt project_id') proj') by done.
  replace (is_none (project_id proj')) with false by (cbn; by rewrite Hid).
  rewrite andb_true_r. by repeat case_match.
Qed.





(** ** The commit helper *)

Lemma commit_or_rollback_run (error_msg : string) (db : Session) :
  commit_or_rollback error_msg db
  = match flush (unit_of_work db) (transaction db) (identity_map db) with
    | Returned (s, ids) =>
        (mkSession s s [] ids (calls db ++ [Call_commit]), Returned ())
    | Raised IntegrityError =>
        (mkSession (database db) (database db) [] []
                   (calls db ++ [Call_commit; Call_rollback]),
         Raised (HTTPException 409 error_msg))
    | Raised e =>
        (mkSession (database db) (database db) (unit_of_work db) (identity_map db)
                   (calls db ++ [Call_commit]), Raised e)
    end.
Proof.
  unfold commit_or_rollback, try_except_IntegrityError, db_commit.
  destruct (flush _ _ _) as [[s ids]|[]]; try done.
  unfold mbind, M_bind, db_rollback, raise. cbn. by rewrite <- app_assoc.
Qed.

(** The immediate [UPDATE] of [update_user] and [patch_user] leaves the
    committed store, the unit of work and the call log alone, and raises no
    HTTP error. *)
Lemma query_update_users_run (user_id' : Z) (values : dict) (db db' : Session)
    (r : outcome Z) :
  query_update_users user_id' values db = (db', r) →
  database db' = database db ∧ unit_of_work db' = unit_of_work db
  ∧ identity_map db' = identity_map db ∧ calls db' = calls db
  ∧ (∀ code detail, r ≠ Raised (HTTPException code detail))
  ∧ (∀ e, r = Raised e → db' = db).
Proof.
  unfold query_update_users. intros Hrun.
  repeat case_match; by simplify_eq.
Qed.

Lemma flush_one_raises (e : pending) (s : Store) (err : exn) :
  flush_one e s = Raised err →
  err = IntegrityError ∨ err = FlushError ∨ err = StaleDataError.
Proof.
  unfold flush_one. intros Hrun.
  repeat case_match; simplify_eq; tauto.
Qed.

Lemma flush_raises (work : list pending) (s : Store) (ids : list (instance * value))
    (err : exn) :
  flush work s ids = Raised err →
  err = IntegrityError ∨ err = FlushError ∨ err = StaleDataError.
Proof.
  revert s ids. induction work as [|e work IH]; intros s ids Hrun; [done|].
  cbn in Hrun. destruct (flush_one e s) as [[s' ids']|err'] eqn:Hone.
  - by eapply IH.
  - simplify_eq. by eapply flush_one_raises.
Qed.

Lemma flush_no_http (work : list pending) (s : Store) (ids : list (instance * value))
    (code : Z) (detail : string) :
  flush work s ids ≠ Raised (HTTPException code detail).
Proof. intros Hrun. apply flush_raises in Hrun. by destruct Hrun as [|[|]]. Qed.


Lemma added_run {A : Type} (obj : instance) (error_msg : string) (refresh : M A)
    (store : Store) :
  (db_add obj;; commit_or_rollback error_msg;; refresh) (SessionLocal store)
  = match flush [New obj] store [] with
    | Returned (s, ids) => refresh (mkSession s s [] ids [Call_commit])
    | Raised IntegrityError =>
        (mkSession store store [] [] [Call_commit; Call_rollback],
         Raised (HTTPException 409 error_msg))
    | Raised e => (mkSession store store [New obj] [] [Call_commit], Raised e)
    end.
Proof.
  rewrite bind_run. unfold db_add at 1. rewrite bind_run, commit_or_rollback_run.
  cbn [SessionLocal database transaction unit_of_work identity_map calls app].
  by destruct (flush _ _ _) as [[s ids]|[]].
Qed.

Lemma db_refresh_project_run (proj : ProjectDB) (db db' : Session)
    (r : outcome ProjectDB) :
  db_refresh_project proj db = (db', r) →
  db' = db ∧ ∀ code detail, r ≠ Raised (HTTPException code detail).
Proof. unfold db_refresh_project. intros Hrun. by case_match; simplify_eq. Qed.

Lemma db_refresh_course_run (course : CourseDB) (db db' : Session)
    (r : outcome CourseDB) :
  db_refresh_course course db = (db', r) →
  db' = db ∧ ∀ code detail, r ≠ Raised (HTTPException code detail).
Proof. unfold db_refresh_course. intros Hrun. by case_match; simplify_eq. Qed.

Ltac no_http :=
  match goal with
  | H : flush _ _ _ = Raised (HTTPException _ _) |- _ =>
      by destruct (flush_no_http _ _ _ _ _ H)
  | H : db_refresh_project _ _ = (_, Raised (HTTPException _ _)) |- _ =>
      let H' := fresh in
      apply db_refresh_project_run in H as [_ H']; by edestruct H'
  | H : db_refresh_course _ _ = (_, Raised (HTTPException _ _)) |- _ =>
      let H' := fresh in
      apply db_refresh_course_run in H as [_ H']; by edestruct H'
  end.

Ltac added Hrun :=
  rewrite added_run in Hrun;
  destruct (flush _ _ _) as [[? ?]|[]] eqn:?; simplify_eq;
  done || no_http.

Lemma conflict_of_helper {A : Type} (handler : M A) (error_msg : string) :
  uses_commit_or_rollback handler error_msg →
  ∀ store db detail,
    handler (SessionLocal store) = (db, Raised (HTTPException 409 detail)) →
    detail = error_msg
    ∧ db = mkSession store store [] [] [Call_commit; Call_rollback].
Proof.
  destruct 1; intros store db detail Hrun.
  - unfold create_course in Hrun. added Hrun.
  - unfold create_project in Hrun. rewrite bind_run in Hrun.
    unfold db_get_user at 1 in Hrun.
    cbn [SessionLocal transaction is_none] in Hrun.
    destruct (select_user store _); [added Hrun | by simplify_eq].
  - destruct (select_project store (VInt project_id')) as [proj|] eqn:Hsel;
      [destruct (select_user store (VInt (pc_owner_id project))) as [owner|] eqn:Howner|].
    + rewrite (update_project_run _ _ _ _ _ Hsel Howner) in Hrun.
      rewrite (modified_project_run _ _ _ _ _ Hsel) in Hrun.
      by repeat case_match; simplify_eq.
    + unfold update_project in Hrun. rewrite bind_run in Hrun.
      unfold db_get_project at 1 in Hrun.
      cbn [SessionLocal transaction is_none] in Hrun. rewrite Hsel in Hrun.
      rewrite bind_run in Hrun. unfold db_get_user at 1 in Hrun.
      cbn [SessionLocal transaction is_none] in Hrun. rewrite Howner in Hrun.
      by simplify_eq.
    + unfold update_project in Hrun. rewrite bind_run in Hrun.
      unfold db_get_project at 1 in Hrun.
      cbn [SessionLocal transaction is_none] in Hrun. rewrite Hsel in Hrun.
      by simplify_eq.
  - destruct (select_project store (VInt project_id')) as [proj|] eqn:Hsel.
    + rewrite (patch_project_run _ _ _ _ Hsel) in Hrun.
      destruct (owner_missing store partial_project); [by simplify_eq|].
      destruct (patched partial_project proj) as [proj'|e] eqn:Hpatched;
        [|unfold patched in Hpatched; by repeat case_match; simplify_eq].
      rewrite (modified_project_run _ _ _ _ _ Hsel) in Hrun.
      by repeat case_match; simplify_eq.
    + unfold patch_project in Hrun. rewrite bind_run in Hrun.
      unfold db_get_project at 1 in Hrun.
      cbn [SessionLocal transaction is_none] in Hrun. rewrite Hsel in Hrun.
      by simplify_eq.
  - unfold create_user_project in Hrun. rewrite bind_run in Hrun.
    unfold db_get_user at 1 in Hrun.
    cbn [SessionLocal transaction is_none] in Hrun.
    destruct (select_user store _); [added Hrun | by simplify_eq].
  - unfold update_user in Hrun. rewrite bind_run in Hrun.
    destruct (query_update_users _ _ _) as [db1 [n|e]] eqn:Hupd;
      apply query_update_users_run in Hupd as (Hdb & Hwork & Hids & Hcalls & Hhttp & _);
      [|by simplify_eq; edestruct Hhttp].
    case_decide; [by simplify_eq|].
    rewrite bind_run, commit_or_rollback_run, Hwork in Hrun.
    unfold db_get_user in Hrun. by simplify_eq.
  - unfold patch_user in Hrun. rewrite bind_run in Hrun.
    destruct (query_update_users _ _ _) as [db1 [n|e]] eqn:Hupd;
      apply query_update_users_run in Hupd as (Hdb & Hwork & Hids & Hcalls & Hhttp & _);
      [|by simplify_eq; edestruct Hhttp].
    case_decide; [by simplify_eq|].
    rewrite bind_run, commit_or_rollback_run, Hwork in Hrun.
    unfold db_get_user in Hrun. by simplify_eq.
Qed.

(** C1: [commit_or_rollback] answers an integrity violation at the commit
    by rolling the session back and then raising 409 with the message of its
    caller; when the commit succeeds it raises nothing and does not roll
    back.  For every handler that ends through it, a 409 is therefore always
    raised on a session whose last two calls are the commit and the rollback
    and whose store is the one the request started with: no write of the
    request persists. *)
Theorem commit_or_rollback_conflict :
  (∀ db error_msg,
     (db_commit db).2 = Raised IntegrityError →
     commit_or_rollback error_msg db
     = (mkSession (database db) (database db) [] []
                  (calls db ++ [Call_commit; Call_rollback]),
        Raised (HTTPException 409 error_msg)))
  ∧ (∀ db db' error_msg,
       db_commit db = (db', Returned ()) →
       commit_or_rollback error_msg db = (db', Returned ())
       ∧ calls db' = (calls db ++ [Call_commit])%list)
  ∧ (∀ (A : Type) (handler : M A) error_msg,
       uses_commit_or_rollback handler error_msg →
       ∀ store db detail,
         handler (SessionLocal store) = (db, Raised (HTTPException 409 detail)) →
         detail = error_msg
         ∧ db = mkSession store store [] [] [Call_commit; Call_rollback]
         ∧ request handler store = (store, Raised (HTTPException 409 error_msg))).
Proof.
  split_and!.
  - intros db error_msg Hcommit. rewrite commit_or_rollback_run.
    unfold db_commit in Hcommit.
    destruct (flush _ _ _) as [[s ids]|e]; cbn in Hcommit; by simplify_eq.
  - intros db db' error_msg Hcommit. rewrite commit_or_rollback_run.
    unfold db_commit in Hcommit.
    destruct (flush _ _ _) as [[s ids]|e]; by simplify_eq.
  - intros A handler error_msg Huses store db detail Hrun.
    destruct (conflict_of_helper handler error_msg Huses store db detail Hrun)
      as [-> ->].
    split_and!; [done..|].
    rewrite request_run, Hrun. done.
Qed.

Lemma commit_or_rollback_conflict_witness :
  request (create_course (mkCourseCreate {[ "code" := VStr "CS101" ]})) course_store
  = (course_store, Raised (HTTPException 409 "Course already exists")).
Proof.
  eapply (proj2 (proj2 commit_or_rollback_conflict)).
  - constructor.
  - vm_compute. reflexivity.
Defined.

(** ** PATCH on a user *)

Lemma forallb_false_elem_of {A : Type} (f : A → bool) (l : list A) (x : A) :
  x ∈ l → f x = false → forallb f l = false.
Proof.
  intros Hx Hf. destruct (forallb f l) eqn:Hall; [|done].
  rewrite forallb_forall in Hall.
  rewrite Hall in Hf; [done|]. by apply list_elem_of_In.
Qed.

(** C2, on [patch_user]: a payload with a key that is not a column of the
    users table is not applied in part; the update statement is rejected,
    the exception is not handled (status 500) and the store is as before.
    [patch_project] skips such a key ([hasattr_guard], [patch_loop_items]). *)
Theorem patch_user_unknown_key (user_id' : Z) (partial_user : dict) (store : Store)
    (field : string) (v : value) :
  partial_user !! field = Some v →
  user_column field = false →
  request (patch_user user_id' partial_user) store = (store, Raised CompileError)
  ∧ status_code_of 200 (request (patch_user user_id' partial_user) store).2 = 500.
Proof.
  intros Hfield Hcol.
  assert (request (patch_user user_id' partial_user) store
          = (store, Raised CompileError)) as ->; [|done].
  rewrite request_run. unfold patch_user. rewrite bind_run.
  unfold query_update_users.
  rewrite decide_False by (intros ->; by rewrite lookup_empty in Hfield).
  rewrite (forallb_false_elem_of user_column _ field); [done| |done].
  apply list_elem_of_fmap. exists (field, v). split; [done|].
  by apply elem_of_map_to_list.
Qed.

Lemma patch_user_unknown_key_witness :
  request (patch_user 1 {[ "name" := VStr "Bobby"; "nickname" := VStr "B" ]})
    example_store
  = (example_store, Raised CompileError).
Proof.
  apply (patch_user_unknown_key 1 {[ "name" := VStr "Bobby"; "nickname" := VStr "B" ]}
           example_store "nickname" (VStr "B")); reflexivity.
Defined.

(** The same payload without the unknown key is applied. *)
Example patch_user_known_key :
  request (patch_user 1 {[ "name" := VStr "Bobby" ]}) example_store
  = (mkStore [mkUserDB (VInt 1) (VStr "Bobby") (VStr "a@x.com") (VStr "S1"); bob] []
       [project_a; project_x; project_y],
     Returned (Some (mkUserDB (VInt 1) (VStr "Bobby") (VStr "a@x.com") (VStr "S1")))).
Proof. vm_compute. reflexivity. Qed.

(** A unique-constraint violation of [patch_user] is raised by the update
    statement itself, before [commit_or_rollback] is reached: it is not
    turned into a 409. *)
Example patch_user_duplicate_email :
  request (patch_user 1 {[ "email" := VStr "b@x.com" ]}) example_store
  = (example_store, Raised IntegrityError).
Proof. vm_compute. reflexivity. Qed.

(** [patch_project] on the same kind of payload: the unknown key changes
    nothing in the outcome. *)
Lemma patch_project_ignores_unknown_key (project_id' : Z) (d : dict) (store : Store)
    (field : string) (v : value) :
  project_hasattr field = false →
  request (patch_project project_id' (<[field := v]> d)) store
  = request (patch_project project_id' (delete field d)) store.
Proof.
  intros Hattr.
  assert (∀ k, project_hasattr k = true ∨ k = "owner_id" →
               (<[field := v]> d) !! k = delete field d !! k) as Hsame.
  { intros k Hk. destruct (decide (field = k)) as [->|Hne].
    - destruct Hk as [Hk| ->]; [congruence|]. by vm_compute in Hattr.
    - by rewrite lookup_insert_ne, lookup_delete_ne. }
  destruct (select_project store (VInt project_id')) as [proj|] eqn:Hsel.
  - rewrite !(patch_project_request _ _ _ _ Hsel).
    unfold owner_missing, patched, assign.
    by rewrite !Hsame by (by left || by right).
  - rewrite !request_run. unfold patch_project. rewrite !bind_run.
    unfold db_get_project. cbn [SessionLocal transaction is_none].
    by rewrite Hsel.
Qed.

(** ** The retry loop of app/database.py *)






(** With a retry count of zero the loop body never runs, the name [engine]
    is never bound, and the import of the module fails on it. *)
Example import_database_no_retries :
  (Database.import_database (Database.mkEnviron (Some 0) None) (λ _, true)
     Database.initial).2
  = Raised NameError.
Proof. reflexivity. Qed.

(** ** Listing courses *)

Lemma string_le_iff (s t : string) : string_le s t ↔ s = t ∨ String_as_OT.lt s t.
Proof.
  unfold string_le.
  destruct (String_as_OT.compare_spec s t) as [Heq|Hlt|Hgt].
  - split; [by left|done].
  - split; [by right|done].
  - split; [done|]. intros Hor. exfalso. destruct Hor as [->|Hlt].
    + by apply (irreflexivity String_as_OT.lt t).
    + apply (irreflexivity String_as_OT.lt s). by etransitivity.
Qed.

#[local] Instance string_le_total : Total string_le.
Proof.
  intros s t. rewrite !string_le_iff.
  destruct (String_as_OT.compare_spec s t); auto.
Qed.

#[local] Instance string_le_trans : Transitive string_le.
Proof.
  intros s t u. rewrite !string_le_iff.
  intros [->|Hst] [->|Htu]; auto.
  right. by etransitivity.
Qed.

#[local] Instance value_le_total : Total value_le.
Proof.
  intros [|x|s] [|y|t]; cbn; auto; [lia|apply string_le_total].
Qed.

#[local] Instance value_le_trans : Transitive value_le.
Proof.
  intros [|x|s] [|y|t] [|z|u]; cbn; try done; [lia|apply string_le_trans].
Qed.

#[local] Instance course_le_total : Total course_le.
Proof. intros c d. apply value_le_total. Qed.

#[local] Instance course_le_trans : Transitive course_le.
Proof. intros c d e. apply value_le_trans. Qed.






(** * Further properties of the handlers *)

Local Open Scope list_scope.
Local Open Scope Z_scope.

(** ** Generated ids *)

Lemma foldr_max_bound (x z : Z) (zs : list Z) :
  x = z ∨ x ∈ zs → (x ≤ foldr Z.max z zs)%Z.
Proof.
  induction zs as [|y zs IH]; cbn.
  - intros [->|Hin]; [lia|]. by apply elem_of_nil in Hin.
  - intros [->|Hin].
    + specialize (IH (or_introl eq_refl)). lia.
    + apply elem_of_cons in Hin as [->|Hin]; [lia|].
      specialize (IH (or_intror Hin)). lia.
Qed.

(** The id given to a new row is the id of no stored row. *)
Lemma next_id_fresh (ids : list value) : next_id ids ∉ ids.
Proof.
  unfold next_id. intros Hin.
  assert (∀ x, VInt x ∈ ids → x ∈ int_ids ids) as Hints.
  { intros x Hx. apply list_elem_of_omap. by exists (VInt x). }
  destruct (int_ids ids) as [|z zs] eqn:Hids.
  - apply Hints in Hin. by apply elem_of_nil in Hin.
  - apply Hints in Hin. apply elem_of_cons in Hin.
    apply foldr_max_bound in Hin. lia.
Qed.

Lemma next_id_not_none (ids : list value) : is_none (next_id ids) = false.
Proof. unfold next_id. by destruct (int_ids ids). Qed.

Lemma head_filter_app_fresh {A : Type} (P : A → Prop) `{!∀ x, Decision (P x)}
    (l : list A) (x : A) :
  (∀ y, y ∈ l → ¬ P y) → P x → head (filter P (l ++ [x])) = Some x.
Proof.
  intros Hl Hx. rewrite filter_app.
  replace (filter P l) with (@nil A).
  - by rewrite filter_cons_True.
  - symmetry. apply head_None. by apply head_filter_None.
Qed.

Lemma existsb_false_Forall {A : Type} (f : A → bool) (l : list A) :
  existsb f l = false ↔ ∀ x, x ∈ l → f x = false.
Proof.
  split.
  - intros Hex x Hx. destruct (f x) eqn:Hfx; [|done].
    by rewrite (existsb_elem_of f l x Hx Hfx) in Hex.
  - intros Hall. destruct (existsb f l) eqn:Hex; [|done].
    apply existsb_exists in Hex as (x & Hx & Hfx).
    apply list_elem_of_In in Hx. by rewrite (Hall x Hx) in Hfx.
Qed.

(** ** POST /api/users, in full *)

Lemma add_user_request (payload : UserCreate) (store : Store) :
  request (add_user payload) store
  = if existsb (user_conflicts (created_user payload store)) (users store)
    then (store, Raised (HTTPException 409 "User already exists"))
    else (mkStore (users store ++ [created_user payload store])
                  (courses store) (projects store),
          Returned (created_user payload store)).
Proof.
  unfold add_user. rewrite UserDB_init_model_dump. run.
  fold (created_user payload store).
  replace (user_row_ok (created_user payload store)) with true
    by (unfold user_row_ok; cbn; by rewrite next_id_not_none).
  destruct (existsb _ _) eqn:Hex; [done|]. cbn.
  unfold db_refresh_user. rewrite identity_of_singleton. cbn.
  unfold select_user. cbn.
  rewrite head_filter_app_fresh; [done| |done].
  intros v Hv Hid.
  rewrite existsb_false_Forall in Hex. specialize (Hex v Hv).
  unfold user_conflicts in Hex. cbn in Hex.
  fold (created_user payload store) in Hid.
  rewrite bool_decide_eq_true_2 in Hex by (by rewrite Hid). done.
Qed.


(** X1: A POST /api/users whose email and student_id are those of no stored
    user succeeds: the store gains exactly one user, made of the payload and
    of an id that no stored user has, and that user is returned (201). *)
Theorem add_user_created (payload : UserCreate) (store : Store) :
  (∀ u, u ∈ users store →
        user_email u ≠ VStr (uc_email payload)
        ∧ user_student_id u ≠ VStr (uc_student_id payload)) →
  let user := created_user payload store in
  request (add_user payload) store
  = (mkStore (users store ++ [user]) (courses store) (projects store), Returned user)
  ∧ status_code_of 201 (request (add_user payload) store).2 = 201
  ∧ (∀ u, u ∈ users store → user_id u ≠ user_id user)
  ∧ user_name user = VStr (uc_name payload)
  ∧ user_email user = VStr (uc_email payload)
  ∧ user_student_id user = VStr (uc_student_id payload).
Proof.
  intros Hnew user.
  assert (∀ u, u ∈ users store → user_id u ≠ user_id user) as Hfresh.
  { intros u Hu Hid. apply (next_id_fresh (user_id <$> users store)).
    change (next_id (user_id <$> users store)) with (user_id user).
    rewrite <- Hid. by apply list_elem_of_fmap_2. }
  assert (existsb (user_conflicts user) (users store) = false) as Hex.
  { apply existsb_false_Forall. intros u Hu. unfold user_conflicts.
    destruct (Hnew u Hu) as [Hemail Hsid]. specialize (Hfresh u Hu).
    rewrite !bool_decide_eq_false_2; [done|by cbn|by cbn|done]. }
  rewrite add_user_request. fold user. rewrite Hex. done.
Qed.

Lemma add_user_created_witness :
  request (add_user (mkUserCreate "Cy" "c@x.com" "S3")) example_store
  = (mkStore [ann; bob; mkUserDB (VInt 3) (VStr "Cy") (VStr "c@x.com") (VStr "S3")] []
       [project_a; project_x; project_y],
     Returned (mkUserDB (VInt 3) (VStr "Cy") (VStr "c@x.com") (VStr "S3"))).
Proof.
  apply (add_user_created (mkUserCreate "Cy" "c@x.com" "S3") example_store).
  intros u Hu. vm_compute in Hu.
  repeat (apply elem_of_cons in Hu as [->|Hu]; [by split|]).
  by apply elem_of_nil in Hu.
Defined.

(** ** GET /api/users/{id} *)

Lemma get_user_request (user_id' : Z) (store : Store) :
  request (get_user user_id') store
  = match select_user store (VInt user_id') with
    | Some user => (store, Returned user)
    | None => (store, Raised (HTTPException 404 "User not found"))
    end.
Proof. unfold get_user. run. by destruct (select_user store (VInt user_id')). Qed.



(** X3: Creating a user and reading it back: after a successful POST
    /api/users, GET /api/users/{id} with the generated id returns the user
    created, and the same POST again is answered 409 and changes nothing. *)
Theorem add_user_then (payload : UserCreate) (store store' : Store) (user : UserDB) :
  request (add_user payload) store = (store', Returned user) →
  (∃ k, user_id user = VInt k
        ∧ request (get_user k) store' = (store', Returned user))
  ∧ request (add_user payload) store'
    = (store', Raised (HTTPException 409 "User already exists")).
Proof.
  rewrite add_user_request.
  destruct (existsb _ _) eqn:Hex; [done|]. intros Hrun. simplify_eq.
  set (user := created_user payload store) in *.
  rewrite existsb_false_Forall in Hex.
  split.
  - assert (∃ k, user_id user = VInt k) as [k Hk].
    { unfold user, created_user, next_id. cbn.
      destruct (int_ids _); eauto. }
    exists k. split; [done|].
    unfold get_user. run. rewrite <- Hk. unfold select_user. cbn.
    rewrite head_filter_app_fresh; [done| |done].
    intros v Hv Hid. specialize (Hex v Hv). unfold user_conflicts in Hex.
    rewrite bool_decide_eq_true_2 in Hex by done. done.
  - rewrite add_user_request. cbn [users].
    rewrite (existsb_elem_of _ _ user); [done|apply elem_of_app; right; left|].
    unfold user_conflicts, user, created_user. cbn.
    rewrite (bool_decide_eq_true_2 (VStr (uc_email payload) = _)) by done.
    by rewrite orb_true_r.
Qed.

Lemma add_user_then_witness :
  request (add_user (mkUserCreate "Cy" "c@x.com" "S3"))
    (mkStore [ann; bob; mkUserDB (VInt 3) (VStr "Cy") (VStr "c@x.com") (VStr "S3")] []
       [project_a; project_x; project_y])
  = (mkStore [ann; bob; mkUserDB (VInt 3) (VStr "Cy") (VStr "c@x.com") (VStr "S3")] []
       [project_a; project_x; project_y],
     Raised (HTTPException 409 "User already exists")).
Proof.
  apply (add_user_then (mkUserCreate "Cy" "c@x.com" "S3") example_store _
           (mkUserDB (VInt 3) (VStr "Cy") (VStr "c@x.com") (VStr "S3"))).
  vm_compute. reflexivity.
Defined.

(** ** POST on projects and courses, in full *)

Lemma flush_new_project (proj : ProjectDB) (store : Store) :
  project_id proj = VNone →
  is_none (project_name proj) = false →
  is_none (project_owner_id proj) = false →
  project_owner proj = Owner_unloaded →
  let row := mkProjectDB (next_id (project_id <$> projects store)) (project_name proj)
               (project_description proj) (project_owner_id proj) Owner_unloaded in
  flush [New (Project_instance proj)] store []
  = Returned (mkStore (users store) (courses store) (projects store ++ [row]),
              [(Project_instance proj, project_id row)])
  ∧ select_project (mkStore (users store) (courses store) (projects store ++ [row]))
      (project_id row) = Some row.
Proof.
  intros Hid Hname Howner Hrel row.
  assert (∀ q, q ∈ projects store → project_id q ≠ project_id row) as Hfresh.
  { intros q Hq Heq. apply (next_id_fresh (project_id <$> projects store)).
    change (next_id (project_id <$> projects store)) with (project_id row).
    rewrite <- Heq. by apply list_elem_of_fmap_2. }
  split.
  - cbn. rewrite Hid, Hrel. cbn. fold row.
    replace (project_row_ok row) with true
      by (unfold project_row_ok, effective_owner_id; cbn;
          by rewrite next_id_not_none, Hname, Howner).
    replace (existsb (project_conflicts row) (projects store)) with false; [done|].
    symmetry. apply existsb_false_Forall. intros q Hq.
    apply bool_decide_eq_false_2. intros Heq. by apply (Hfresh q Hq).
  - apply (head_filter_app_fresh (λ q, project_id q = project_id row)); [|done].
    intros q Hq. by apply Hfresh.
Qed.

Lemma create_project_request (project : ProjectCreate) (store : Store) :
  request (create_project project) store
  = match select_user store (VInt (pc_owner_id project)) with
    | None => (store, Raised (HTTPException 404 "User not found"))
    | Some _ =>
        (mkStore (users store) (courses store)
                 (projects store ++ [created_project project store]),
         Returned (created_project project store))
    end.
Proof.
  assert (create_project project (SessionLocal store)
          = match select_user store (VInt (pc_owner_id project)) with
            | None => (SessionLocal store, Raised (HTTPException 404 "User not found"))
            | Some _ =>
                (mkSession
                   (mkStore (users store) (courses store)
                      (projects store ++ [created_project project store]))
                   (mkStore (users store) (courses store)
                      (projects store ++ [created_project project store]))
                   [] [(Project_instance
                          (mkProjectDB VNone (VStr (pc_name project))
                             (optional_str (pc_description project))
                             (VInt (pc_owner_id project)) Owner_unloaded),
                        project_id (created_project project store))]
                   [Call_commit],
                 Returned (created_project project store))
            end) as Hrun.
  { unfold create_project. rewrite bind_run.
    unfold db_get_user at 1. cbn [SessionLocal transaction is_none].
    destruct (select_user store _); [|done].
    rewrite added_run.
    edestruct (flush_new_project
                 (mkProjectDB VNone (VStr (pc_name project))
                    (optional_str (pc_description project))
                    (VInt (pc_owner_id project)) Owner_unloaded) store)
      as [-> Hsel]; [done..|].
    unfold db_refresh_project. rewrite identity_of_singleton.
    cbn [transaction mbind option_bind]. by rewrite Hsel. }
  rewrite request_run, Hrun. by destruct (select_user store _).
Qed.

(** X4: A POST /api/projects whose owner_id is the id of a stored user always
    succeeds: the store gains exactly one project, made of the payload and of
    an id that no stored project has, which is returned (201).  The project
    then shows in the projects of its owner and can be read back, with its
    owner, under its id. *)
Theorem create_project_created (project : ProjectCreate) (store : Store)
    (owner : UserDB) :
  select_user store (VInt (pc_owner_id project)) = Some owner →
  let proj := created_project project store in
  let store' := mkStore (users store) (courses store) (projects store ++ [proj]) in
  request (create_project project) store = (store', Returned proj)
  ∧ status_code_of 201 (request (create_project project) store).2 = 201
  ∧ (∀ q, q ∈ projects store → project_id q ≠ project_id proj)
  ∧ (∃ rows, request (get_user_projects (pc_owner_id project)) store'
             = (store', Returned rows) ∧ proj ∈ rows)
  ∧ (∃ k, project_id proj = VInt k
          ∧ request (get_project_with_owner k) store'
            = (store', Returned (mkProjectWithOwner proj (Some owner)))).
Proof.
  intros Howner proj store'.
  assert (∀ q, q ∈ projects store → project_id q ≠ project_id proj) as Hfresh.
  { intros q Hq Heq. apply (next_id_fresh (project_id <$> projects store)).
    change (next_id (project_id <$> projects store)) with (project_id proj).
    rewrite <- Heq. by apply list_elem_of_fmap_2. }
  split_and!.
  - rewrite create_project_request. by rewrite Howner.
  - rewrite create_project_request. by rewrite Howner.
  - done.
  - eexists. split; [done|]. apply list_elem_of_filter. split; [done|].
    apply elem_of_app. right. left.
  - assert (∃ k, project_id proj = VInt k) as [k Hk].
    { unfold proj, created_project, next_id. cbn. destruct (int_ids _); eauto. }
    exists k. split; [done|].
    rewrite request_run. unfold get_project_with_owner. rewrite bind_run.
    cbn [SessionLocal transaction projects store'].
    rewrite <- Hk, filter_app.
    replace (filter (λ p, project_id p = project_id proj) (projects store))
      with (@nil ProjectDB).
    + rewrite filter_cons_True by done. cbn.
      unfold selectinload_owner. cbn [project_owner_id proj created_project is_none].
      change (select_user store' (VInt (pc_owner_id project)))
        with (select_user store (VInt (pc_owner_id project))).
      by rewrite Howner.
    + symmetry. apply head_None.
      apply (head_filter_None (λ p, project_id p = project_id proj)).
      intros q Hq. by apply Hfresh.
Qed.

Lemma create_project_created_witness :
  request (create_project (mkProjectCreate "N" (Some "D") 2)) example_store
  = (mkStore [ann; bob] []
       [project_a; project_x; project_y;
        mkProjectDB (VInt 4) (VStr "N") (VStr "D") (VInt 2) Owner_unloaded],
     Returned (mkProjectDB (VInt 4) (VStr "N") (VStr "D") (VInt 2) Owner_unloaded)).
Proof.
  apply (create_project_created (mkProjectCreate "N" (Some "D") 2) example_store bob).
  reflexivity.
Defined.



Lemma create_course_request (course : CourseCreate) (store : Store) :
  request (create_course course) store
  = if existsb (course_conflicts (created_course course store)) (courses store)
    then (store, Raised (HTTPException 409 "Course already exists"))
    else (mkStore (users store) (courses store ++ [created_course course store])
                  (projects store),
          Returned (created_course course store)).
Proof.
  set (row := created_course course store).
  assert (∀ c, c ∈ courses store → course_id c ≠ course_id row) as Hfresh.
  { intros c Hc Heq. apply (next_id_fresh (course_id <$> courses store)).
    change (next_id (course_id <$> courses store)) with (course_id row).
    rewrite <- Heq. by apply list_elem_of_fmap_2. }
  assert (create_course course (SessionLocal store)
          = if existsb (course_conflicts row) (courses store)
            then (mkSession store store [] [] [Call_commit; Call_rollback],
                  Raised (HTTPException 409 "Course already exists"))
            else (mkSession
                    (mkStore (users store) (courses store ++ [row]) (projects store))
                    (mkStore (users store) (courses store ++ [row]) (projects store))
                    [] [(Course_instance (mkCourseDB VNone (course_model_dump course)),
                         course_id row)] [Call_commit],
                  Returned row)) as Hsession.
  { unfold create_course. rewrite added_run.
    cbn [flush flush_one course_id is_none course_attrs].
    rewrite next_id_not_none.
    change (mkCourseDB (next_id (course_id <$> courses store))
              (course_model_dump course)) with row.
    change (next_id (course_id <$> courses store)) with (course_id row).
    cbn [negb andb].
    destruct (existsb _ _) eqn:Hex; [done|]. cbn [negb app].
    unfold db_refresh_course. rewrite identity_of_singleton.
    cbn [transaction mbind option_bind]. unfold select_course. cbn [courses].
    rewrite (head_filter_app_fresh (λ c, course_id c = course_id row)); [done| |done].
    intros c Hc. by apply Hfresh. }
  rewrite request_run, Hsession. by destruct (existsb _ _).
Qed.

(** X6: POST /api/courses: a course whose attributes are those of no stored
    course is stored under an id that no stored course has, and returned
    (201); a course whose attributes are those of a stored course is answered
    409 "Course already exists" and nothing is stored. *)
Theorem create_course_created (course : CourseCreate) (store : Store) :
  let row := created_course course store in
  ((∀ c, c ∈ courses store → course_attrs c ≠ course_model_dump course) →
   request (create_course course) store
   = (mkStore (users store) (courses store ++ [row]) (projects store), Returned row)
   ∧ ∀ c, c ∈ courses store → course_id c ≠ course_id row)
  ∧ (∀ c, c ∈ courses store → course_attrs c = course_model_dump course →
     request (create_course course) store
     = (store, Raised (HTTPException 409 "Course already exists"))).
Proof.
  intros row.
  assert (∀ c, c ∈ courses store → course_id c ≠ course_id row) as Hfresh.
  { intros c Hc Heq. apply (next_id_fresh (course_id <$> courses store)).
    change (next_id (course_id <$> courses store)) with (course_id row).
    rewrite <- Heq. by apply list_elem_of_fmap_2. }
  rewrite create_course_request. fold row. split.
  - intros Hnew. split; [|done].
    replace (existsb (course_conflicts row) (courses store)) with false; [done|].
    symmetry. apply existsb_false_Forall. intros c Hc. unfold course_conflicts.
    rewrite !bool_decide_eq_false_2; [done| |].
    + intros Heq. apply (Hnew c Hc). by rewrite <- Heq.
    + intros Heq. by apply (Hfresh c Hc).
  - intros c Hc Hattrs.
    rewrite (existsb_elem_of _ _ c Hc); [done|]. unfold course_conflicts.
    rewrite (bool_decide_eq_true_2 (course_attrs row = _)) by by rewrite Hattrs.
    by rewrite orb_true_r.
Qed.

Lemma create_course_created_witness :
  request (create_course (mkCourseCreate {[ "code" := VStr "CS102" ]})) course_store
  = (mkStore [] [mkCourseDB (VInt 1) {[ "code" := VStr "CS101" ]};
                 mkCourseDB (VInt 2) {[ "code" := VStr "CS102" ]}] [],
     Returned (mkCourseDB (VInt 2) {[ "code" := VStr "CS102" ]})).
Proof.
  destruct (create_course_created (mkCourseCreate {[ "code" := VStr "CS102" ]})
              course_store) as [Hnew _].
  destruct Hnew as [Hrun _]; [|exact Hrun].
  intros c Hc. vm_compute in Hc.
  apply elem_of_cons in Hc as [->|Hc]; [|by apply elem_of_nil in Hc].
  apply (bool_decide_unpack _). vm_compute. exact I.
Defined.

(** ** The handlers that only read *)


Lemma filter_all {A : Type} (P : A → Prop) `{!∀ x, Decision (P x)} (l : list A) :
  (∀ x, x ∈ l → P x) → filter P l = l.
Proof.
  induction l as [|y l IH]; intros Hall; [done|].
  rewrite filter_cons_True by (apply Hall; left).
  f_equal. apply IH. intros x Hx. apply Hall. by right.
Qed.

Lemma get_project_with_owner_request (project_id' : Z) (store : Store) :
  request (get_project_with_owner project_id') store
  = match scalar_one_or_none
            (selectinload_owner store
               <$> filter (λ p, project_id p = VInt project_id') (projects store)) with
    | Returned (Some found) => (store, Returned found)
    | Returned None => (store, Raised (HTTPException 404 "Project not found"))
    | Raised e => (store, Raised e)
    end.
Proof.
  rewrite request_run. unfold get_project_with_owner. rewrite bind_run.
  cbn [SessionLocal transaction].
  by destruct (scalar_one_or_none _) as [[found|]|e].
Qed.



(** X8: GET /api/users and GET /api/projects return every stored row exactly
    once, in ascending order of id, without pagination; they change nothing
    and raise nothing. *)
Theorem list_all_ordered (store : Store) :
  (∃ rows, request list_users store = (store, Returned rows)
           ∧ rows ≡ₚ users store ∧ StronglySorted user_le rows)
  ∧ (∃ rows, request list_projects store = (store, Returned rows)
             ∧ rows ≡ₚ projects store ∧ StronglySorted project_le rows).
Proof.
  assert (Total user_le) by (intros u v; apply value_le_total).
  assert (Transitive user_le) by (intros u v w; apply value_le_trans).
  assert (Total project_le) by (intros u v; apply value_le_total).
  assert (Transitive project_le) by (intros u v w; apply value_le_trans).
  split; eexists; (split_and!; [reflexivity| |]).
  - apply merge_sort_Permutation.
  - by apply (StronglySorted_merge_sort user_le).
  - apply merge_sort_Permutation.
  - by apply (StronglySorted_merge_sort project_le).
Qed.



(** ** Deleting a user, again and after creating it *)

Lemma delete_user_request (user_id' : Z) (store : Store) :
  request (delete_user user_id') store
  = match select_user store (VInt user_id') with
    | Some _ => (without_user (VInt user_id') store, Returned (mkResponse 204 ""))
    | None => (store, Raised (HTTPException 404 "User not found"))
    end.
Proof.
  unfold delete_user. run.
  destruct (select_user store (VInt user_id')) as [user|] eqn:Hsel; [|done].
  apply select_user_Some in Hsel as [Hid _]. cbn. by rewrite Hid.
Qed.

(** X10: A second DELETE of the same user is answered 404 and changes nothing. *)
Theorem delete_user_twice (user_id' : Z) (store store' : Store) (response : Response) :
  request (delete_user user_id') store = (store', Returned response) →
  request (delete_user user_id') store'
  = (store', Raised (HTTPException 404 "User not found")).
Proof.
  rewrite !delete_user_request.
  destruct (select_user store (VInt user_id')); [|done].
  intros Hrun. simplify_eq.
  replace (select_user (without_user (VInt user_id') store) (VInt user_id'))
    with (@None UserDB); [done|].
  symmetry. apply (head_filter_None (λ v, user_id v = VInt user_id')).
  intros v Hv. apply list_elem_of_filter in Hv. tauto.
Qed.

Lemma delete_user_twice_witness :
  request (delete_user 1) (mkStore [bob] [] [project_x])
  = (mkStore [bob] [] [project_x], Raised (HTTPException 404 "User not found")).
Proof.
  apply (delete_user_twice 1 example_store _ (mkResponse 204 "")). reflexivity.
Defined.

Lemma Forall_Exists_owner (s : Store) (p : ProjectDB) :
  owners_exist s → p ∈ projects s →
  ∃ u, u ∈ users s ∧ user_id u = project_owner_id p.
Proof.
  intros Hown Hp. unfold owners_exist in Hown.
  rewrite Forall_forall in Hown. specialize (Hown p Hp).
  by apply Exists_exists in Hown.
Qed.

(** X11: Creating a user and deleting it again gives back the store one started
    with, when every project of that store names a stored user as owner. *)
Theorem add_then_delete_user (payload : UserCreate) (store store' : Store)
    (user : UserDB) (k : Z) :
  owners_exist store →
  request (add_user payload) store = (store', Returned user) →
  user_id user = VInt k →
  request (delete_user k) store' = (store, Returned (mkResponse 204 "")).
Proof.
  intros Hown. rewrite add_user_request.
  destruct (existsb _ _) eqn:Hex; [done|]. intros Hrun Hk. simplify_eq.
  set (user := created_user payload store) in *.
  rewrite existsb_false_Forall in Hex.
  assert (∀ v, v ∈ users store → user_id v ≠ VInt k) as Hfresh.
  { intros v Hv Hid. specialize (Hex v Hv). unfold user_conflicts in Hex.
    rewrite bool_decide_eq_true_2 in Hex by congruence. done. }
  rewrite delete_user_request. unfold select_user. cbn [users].
  rewrite (head_filter_app_fresh (λ u, user_id u = VInt k)) by done.
  unfold without_user. cbn [users courses projects].
  rewrite filter_app, filter_cons_False, filter_nil, app_nil_r by (by intros []).
  rewrite (filter_all (λ u, user_id u ≠ VInt k)) by done.
  rewrite (filter_all (λ p, project_owner_id p ≠ VInt k)); [by destruct store|].
  intros p Hp Howner.
  destruct (Forall_Exists_owner store p Hown Hp) as (v & Hv & Hid).
  apply (Hfresh v Hv). congruence.
Qed.

Lemma add_then_delete_user_witness :
  request (delete_user 3)
    (mkStore [ann; bob; mkUserDB (VInt 3) (VStr "Cy") (VStr "c@x.com") (VStr "S3")] []
       [project_a; project_x; project_y])
  = (example_store, Returned (mkResponse 204 "")).
Proof.
  apply (add_then_delete_user (mkUserCreate "Cy" "c@x.com" "S3") example_store _
           (mkUserDB (VInt 3) (VStr "Cy") (VStr "c@x.com") (VStr "S3")) 3).
  - apply (bool_decide_unpack _). vm_compute. exact I.
  - vm_compute. reflexivity.
  - reflexivity.
Defined.

(** ** PUT and PATCH on a project, again *)

Lemma update_project_missing (project_id' : Z) (project : ProjectCreate)
    (store : Store) (a : ProjectDB) (store' : Store) :
  request (update_project project_id' project) store = (store', Returned a) →
  ∃ proj owner,
    select_project store (VInt project_id') = Some proj
    ∧ select_user store (VInt (pc_owner_id project)) = Some owner.
Proof.
  destruct (select_project store (VInt project_id')) as [proj|] eqn:Hsel;
    [destruct (select_user store (VInt (pc_owner_id project))) as [owner|] eqn:Hown|].
  - eauto.
  - unfold update_project. run. rewrite Hsel. cbn. by rewrite Hown.
  - unfold update_project. run. by rewrite Hsel.
Qed.

(** X12: PUT on a project is idempotent: a PUT that succeeded, repeated on the
    store it left, returns the same project and leaves that store as it
    is. *)
Theorem update_project_idempotent (project_id' : Z) (project : ProjectCreate)
    (store store' : Store) (proj' : ProjectDB) :
  request (update_project project_id' project) store = (store', Returned proj') →
  request (update_project project_id' project) store' = (store', Returned proj').
Proof.
  intros Hrun.
  destruct (update_project_missing _ _ _ _ _ Hrun) as (proj & owner & Hsel & Hown).
  pose proof (select_project_Some _ _ _ Hsel) as [Hid _].
  rewrite (update_project_request _ _ _ _ _ Hsel Hown) in Hrun.
  set (new := mkProjectDB (project_id proj) (VStr (pc_name project))
                (optional_str (pc_description project))
                (VInt (pc_owner_id project)) (project_owner proj)) in *.
  assert (proj' = new ∧ select_project store' (VInt project_id') = Some new
          ∧ users store' = users store) as (-> & Hsel' & Husers).
  { destruct (decide (new = proj)) as [Heq|Hne].
    - injection Hrun as <- <-. by rewrite Heq.
    - destruct (project_row_ok new); [|done]. injection Hrun as <- <-.
      split_and!; [done| |done].
      pose proof (select_replaced (VInt project_id') new proj store Hsel
                    (no_conflict_same_key _ _ _ Hid)) as Hs.
      change (project_id new) with (project_id proj) in Hs.
      by rewrite Hid in Hs. }
  assert (select_user store' (VInt (pc_owner_id project)) = Some owner) as Hown'
    by (unfold select_user; by rewrite Husers).
  rewrite (update_project_request _ _ _ _ _ Hsel' Hown').
  by rewrite decide_True.
Qed.

Lemma update_project_idempotent_witness :
  request (update_project 1 (mkProjectCreate "N" None 2))
    (mkStore [ann; bob] []
       [mkProjectDB (VInt 1) (VStr "N") VNone (VInt 2) Owner_unloaded;
        project_x; project_y])
  = (mkStore [ann; bob] []
       [mkProjectDB (VInt 1) (VStr "N") VNone (VInt 2) Owner_unloaded;
        project_x; project_y],
     Returned (mkProjectDB (VInt 1) (VStr "N") VNone (VInt 2) Owner_unloaded)).
Proof.
  apply (update_project_idempotent 1 (mkProjectCreate "N" None 2) example_store).
  vm_compute. reflexivity.
Defined.

(** X13: A PATCH with an empty payload on a stored project returns the project
    as it is stored and changes nothing. *)
Theorem patch_project_empty (project_id' : Z) (store : Store) (proj : ProjectDB) :
  select_project store (VInt project_id') = Some proj →
  request (patch_project project_id' ∅) store = (store, Returned proj).
Proof.
  intros Hsel. rewrite (patch_project_request _ _ _ _ Hsel).
  unfold owner_missing, patched, assign. rewrite !lookup_empty. cbn.
  clear Hsel. destruct proj. cbn. by rewrite decide_True.
Qed.

Lemma patch_project_empty_witness :
  request (patch_project 2 ∅) example_store = (example_store, Returned project_x).
Proof. apply (patch_project_empty 2 example_store project_x). reflexivity. Defined.


(** ** PUT and PATCH on a user *)

Lemma users_update_request (error_msg : string) (user_id' : Z) (values : dict)
    (store : Store) :
  request (result ← query_update_users user_id' values;
           if decide (result = 0) then raise (HTTPException 404 "User not found")
           else commit_or_rollback error_msg;; db_get_user (VInt user_id')) store
  = if decide (values = ∅) then (store, Raised OperationalError)
    else if negb (forallb user_column (fst <$> items values))
    then (store, Raised CompileError)
    else if user_update_ok (VInt user_id') values store
    then if decide (filter (λ u, user_id u = VInt user_id') (users store) = [])
         then (store, Raised (HTTPException 404 "User not found"))
         else (with_user_updated (VInt user_id') values store,
               Returned (select_user (with_user_updated (VInt user_id') values store)
                           (VInt user_id')))
    else (store, Raised IntegrityError).
Proof.
  unfold request. rewrite bind_run. unfold query_update_users, user_update_ok.
  cbn [SessionLocal transaction database unit_of_work identity_map calls].
  destruct (decide (values = ∅)); [done|].
  destruct (negb (forallb _ _)); [done|].
  destruct (forallb user_row_ok _ && _); [|done].
  destruct (filter _ (users store)) as [|u matched] eqn:Hmatched.
  - by rewrite decide_True.
  - rewrite decide_False by (cbn; lia). rewrite decide_False by done.
    rewrite bind_run, commit_or_rollback_run. done.
Qed.

Lemma patch_user_request (user_id' : Z) (partial_user : dict) (store : Store) :
  request (patch_user user_id' partial_user) store
  = if decide (partial_user = ∅) then (store, Raised OperationalError)
    else if negb (forallb user_column (fst <$> items partial_user))
    then (store, Raised CompileError)
    else if user_update_ok (VInt user_id') partial_user store
    then if decide (filter (λ u, user_id u = VInt user_id') (users store) = [])
         then (store, Raised (HTTPException 404 "User not found"))
         else (with_user_updated (VInt user_id') partial_user store,
               Returned (select_user
                           (with_user_updated (VInt user_id') partial_user store)
                           (VInt user_id')))
    else (store, Raised IntegrityError).
Proof. apply (users_update_request "User partial update failed"). Qed.

Lemma user_model_dump_columns (payload : UserCreate) :
  user_model_dump payload ≠ ∅
  ∧ forallb user_column (fst <$> items (user_model_dump payload)) = true
  ∧ user_model_dump payload !! "id" = None
  ∧ ∀ u, update_user_row (user_model_dump payload) u
         = mkUserDB (user_id u) (VStr (uc_name payload)) (VStr (uc_email payload))
                    (VStr (uc_student_id payload)).
Proof.
  split_and!.
  - intros Hempty.
    assert (user_model_dump payload !! "name" = None) as Hname
      by by rewrite Hempty.
    unfold user_model_dump in Hname. by simplify_map_eq.
  - apply forallb_forall. intros field Hfield.
    apply list_elem_of_In, list_elem_of_fmap in Hfield as ([k v] & -> & Hkv).
    apply elem_of_map_to_list in Hkv. unfold user_model_dump in Hkv. cbn.
    destruct (decide (k = "name")) as [->|]; [done|].
    destruct (decide (k = "email")) as [->|]; [done|].
    destruct (decide (k = "student_id")) as [->|]; [done|].
    by simplify_map_eq.
  - unfold user_model_dump. by simplify_map_eq.
  - intros u. unfold update_user_row, user_model_dump, assign. by simplify_map_eq.
Qed.

Lemma update_user_request (user_id' : Z) (updated_user : UserCreate) (store : Store) :
  request (update_user user_id' updated_user) store
  = if user_update_ok (VInt user_id') (user_model_dump updated_user) store
    then if decide (filter (λ u, user_id u = VInt user_id') (users store) = [])
         then (store, Raised (HTTPException 404 "User not found"))
         else (with_user_updated (VInt user_id') (user_model_dump updated_user) store,
               Returned (select_user
                           (with_user_updated (VInt user_id')
                              (user_model_dump updated_user) store)
                           (VInt user_id')))
    else (store, Raised IntegrityError).
Proof.
  unfold update_user.
  rewrite (users_update_request "User update failed (duplicate email or student_id)").
  destruct (user_model_dump_columns updated_user) as (Hne & Hcols & _).
  rewrite decide_False by done. by rewrite Hcols.
Qed.

(** X15: PUT on a user is PATCH with the three fields of the payload: the two
    requests leave the same store and give the same outcome. *)
Theorem update_user_as_patch_user (user_id' : Z) (updated_user : UserCreate)
    (store : Store) :
  request (update_user user_id' updated_user) store
  = request (patch_user user_id' (user_model_dump updated_user)) store.
Proof.
  rewrite update_user_request, patch_user_request.
  destruct (user_model_dump_columns updated_user) as (Hne & Hcols & _).
  rewrite (decide_False (P := user_model_dump updated_user = ∅)) by exact Hne.
  by rewrite Hcols.
Qed.

(** X16: Neither PUT nor PATCH on a user is ever answered 409: the constraints
    are checked by the update statement, which runs before
    [commit_or_rollback], and the commit that follows has nothing left to
    violate.  A PUT that gives a stored user the email or the student id of
    another stored user ends in an unhandled [IntegrityError], with the store
    as it was. *)
Theorem user_update_never_conflict (user_id' : Z) (store : Store) :
  (∀ updated_user detail,
     (request (update_user user_id' updated_user) store).2
     ≠ Raised (HTTPException 409 detail))
  ∧ (∀ partial_user detail,
       (request (patch_user user_id' partial_user) store).2
       ≠ Raised (HTTPException 409 detail))
  ∧ (∀ updated_user user other,
       user ∈ users store → user_id user = VInt user_id' →
       other ∈ users store → user_id other ≠ VInt user_id' →
       user_email other = VStr (uc_email updated_user)
       ∨ user_student_id other = VStr (uc_student_id updated_user) →
       request (update_user user_id' updated_user) store = (store, Raised IntegrityError)
       ∧ status_code_of 200 (request (update_user user_id' updated_user) store).2 = 500).
Proof.
  split_and!.
  - intros updated_user detail. rewrite update_user_request.
    by repeat case_match.
  - intros partial_user detail. rewrite patch_user_request.
    by repeat case_match.
  - intros updated_user user other Huser Hid Hother Hoid Hdup.
    rewrite update_user_request.
    replace (user_update_ok (VInt user_id') (user_model_dump updated_user) store)
      with false; [done|].
    symmetry. unfold user_update_ok. apply andb_false_iff. right.
    apply negb_false_iff.
    destruct (user_model_dump_columns updated_user) as (_ & _ & _ & Hrow).
    apply (existsb_elem_of _ _ (update_user_row (user_model_dump updated_user) user)).
    { apply list_elem_of_fmap_2. by apply list_elem_of_filter. }
    apply (existsb_elem_of _ _ other).
    { by apply list_elem_of_filter. }
    rewrite Hrow. unfold user_conflicts. cbn.
    destruct Hdup as [<-|<-].
    + rewrite (bool_decide_eq_true_2 (user_email other = _)) by done.
      by rewrite orb_true_r.
    + rewrite (bool_decide_eq_true_2 (user_student_id other = _)) by done.
      by rewrite orb_true_r.
Qed.

Lemma user_update_never_conflict_witness :
  request (update_user 1 (mkUserCreate "Ann" "b@x.com" "S1")) example_store
  = (example_store, Raised IntegrityError).
Proof.
  apply (proj2 (proj2 (user_update_never_conflict 1 example_store))
           (mkUserCreate "Ann" "b@x.com" "S1") ann bob).
  - left.
  - reflexivity.
  - right. left.
  - discriminate.
  - left. reflexivity.
Defined.




Lemma forallb_columns (d : dict) :
  forallb user_column (fst <$> items d) = true →
  ∀ field, is_Some (d !! field) → user_column field = true.
Proof.
  intros Hall field [v Hv]. rewrite forallb_forall in Hall. apply Hall.
  apply list_elem_of_In, list_elem_of_fmap. exists (field, v). split; [done|].
  by apply elem_of_map_to_list.
Qed.



(** ** What a request can do to the store *)

Lemma select_user_Exists (s : Store) (key : value) (u : UserDB) :
  select_user s key = Some u → Exists (λ v, user_id v = key) (users s).
Proof.
  intros Hsel. apply select_user_Some in Hsel as [Hid Hin].
  apply Exists_exists. eauto.
Qed.

Lemma patched_owner_id (d : dict) (proj proj' : ProjectDB) :
  patched d proj = Returned proj' →
  project_owner_id proj' = assign d "owner_id" (project_owner_id proj).
Proof.
  unfold patched. intros Hp.
  destruct (d !! "owner") as [[]|]; by simplify_eq.
Qed.

Lemma update_project_cases (project_id' : Z) (project : ProjectCreate) (store : Store) :
  request (update_project project_id' project) store
  = match select_project store (VInt project_id') with
    | None => (store, Raised (HTTPException 404 "Project not found"))
    | Some proj =>
        match select_user store (VInt (pc_owner_id project)) with
        | None => (store, Raised (HTTPException 404 "Owner user not found"))
        | Some _ =>
            let proj' := mkProjectDB (project_id proj) (VStr (pc_name project))
                           (optional_str (pc_description project))
                           (VInt (pc_owner_id project)) (project_owner proj) in
            if decide (proj' = proj) then (store, Returned proj')
            else if project_row_ok proj'
            then (replace_project (VInt project_id') proj' store, Returned proj')
            else (store, Raised (HTTPException 409 "Project update failed"))
        end
    end.
Proof.
  destruct (select_project store (VInt project_id')) as [proj|] eqn:Hsel;
    [destruct (select_user store (VInt (pc_owner_id project))) as [owner|] eqn:Hown|].
  - by rewrite (update_project_request _ _ _ _ _ Hsel Hown).
  - unfold update_project. run. rewrite Hsel. cbn. by rewrite Hown.
  - unfold update_project. run. by rewrite Hsel.
Qed.

Lemma patch_project_cases (project_id' : Z) (d : dict) (store : Store) :
  request (patch_project project_id' d) store
  = match select_project store (VInt project_id') with
    | None => (store, Raised (HTTPException 404 "Project not found"))
    | Some proj =>
        if owner_missing store d
        then (store, Raised (HTTPException 404 "Owner user not found"))
        else match patched d proj with
             | Raised e => (store, Raised e)
             | Returned proj' =>
                 if decide (proj' = proj) then (store, Returned proj')
                 else if is_none (project_id proj') then (store, Raised FlushError)
                 else if project_row_ok proj'
                         && negb (existsb (project_conflicts proj')
                                    (filter (λ q, project_id q ≠ VInt project_id')
                                       (projects store)))
                 then (replace_project (VInt project_id') proj' store, Returned proj')
                 else (store,
                       Raised (HTTPException 409 "Project partial update failed"))
             end
    end.
Proof.
  destruct (select_project store (VInt project_id')) as [proj|] eqn:Hsel.
  - by rewrite (patch_project_request _ _ _ _ Hsel).
  - rewrite request_run. unfold patch_project. rewrite !bind_run.
    unfold db_get_project. cbn [SessionLocal transaction is_none].
    by rewrite Hsel.
Qed.

Lemma created_project_ok (project : ProjectCreate) (store : Store) :
  project_row_ok (created_project project store) = true
  ∧ existsb (project_conflicts (created_project project store)) (projects store) = false.
Proof.
  split.
  - unfold project_row_ok, effective_owner_id. cbn. by rewrite next_id_not_none.
  - apply existsb_false_Forall. intros q Hq. apply bool_decide_eq_false_2.
    intros Heq. apply (next_id_fresh (project_id <$> projects store)).
    cbn in Heq. rewrite Heq. by apply list_elem_of_fmap_2.
Qed.

(** Every handler either leaves the store as it is or makes one step, and
    leaves it as it is whenever it raises. *)
Lemma endpoint_step {A : Type} (handler : M A) (store : Store) :
  endpoint handler →
  store_step store (request handler store).1
  ∧ ∀ e, (request handler store).2 = Raised e → (request handler store).1 = store.
Proof.
  destruct 1.
  - rewrite create_course_request.
    destruct (existsb _ _) eqn:Hex; (split; [|done]); [constructor|].
    apply step_add_course; [|done]. cbn. apply next_id_not_none.
  - split; [constructor|done].
  - rewrite create_project_request.
    destruct (select_user store _) as [owner|] eqn:Hown; (split; [|done]);
      [|constructor].
    destruct (created_project_ok project store) as [Hok Hex].
    apply step_add_project; [done..|]. by eapply select_user_Exists.
  - split; [constructor|done].
  - rewrite get_project_with_owner_request.
    destruct (scalar_one_or_none _) as [[found|]|e]; (split; [constructor|done]).
  - rewrite update_project_cases.
    destruct (select_project store _) as [proj|] eqn:Hsel;
      [|split; [constructor|done]].
    destruct (select_user store _) as [owner|] eqn:Hown;
      [|split; [constructor|done]].
    cbn zeta. case_decide; [split; [constructor|done]|].
    destruct (project_row_ok _) eqn:Hok; [|split; [constructor|done]].
    split; [|done]. cbn [fst].
    apply (step_replace_project _ _ _ proj); [done..| |].
    + apply no_conflict_same_key. cbn. by apply select_project_Some in Hsel as [? _].
    + left. by eapply select_user_Exists.
  - rewrite patch_project_cases.
    destruct (select_project store _) as [proj|] eqn:Hsel;
      [|split; [constructor|done]].
    destruct (owner_missing store partial_project) eqn:Hmissing;
      [split; [constructor|done]|].
    destruct (patched partial_project proj) as [proj'|e] eqn:Hpatched;
      [|split; [constructor|done]].
    case_decide; [split; [constructor|done]|].
    destruct (is_none (project_id proj')); [split; [constructor|done]|].
    destruct (project_row_ok proj' && _) eqn:Hok; [|split; [constructor|done]].
    apply andb_true_iff in Hok as [Hok Hex]. apply negb_true_iff in Hex.
    split; [|done]. cbn [fst].
    apply (step_replace_project _ _ _ proj); [done..|].
    rewrite (patched_owner_id _ _ _ Hpatched). unfold assign, owner_missing in *.
    destruct (partial_project !! "owner_id") as [o|]; [|by right].
    left. cbn. apply orb_false_iff in Hmissing as [_ Hsome].
    apply bool_decide_eq_false in Hsome.
    destruct (select_user store o) as [u|] eqn:Hu; [|done].
    by eapply select_user_Exists.
  - split; [constructor|done].
  - assert (create_user_project user_id' project
            = create_project (mkProjectCreate (pcu_name project)
                                (pcu_description project) user_id')) as -> by done.
    rewrite create_project_request. cbn [pc_owner_id].
    destruct (select_user store _) as [owner|] eqn:Hown; (split; [|done]);
      [|constructor].
    destruct (created_project_ok (mkProjectCreate (pcu_name project)
                                    (pcu_description project) user_id') store)
      as [Hok Hex].
    apply step_add_project; [done..|]. by eapply select_user_Exists.
  - split; [constructor|done].
  - rewrite get_user_request.
    destruct (select_user store _); (split; [constructor|done]).
  - rewrite add_user_request.
    destruct (existsb _ _) eqn:Hex; (split; [|done]); [constructor|].
    apply step_add_user; [|done].
    unfold user_row_ok. cbn. by rewrite next_id_not_none.
  - rewrite delete_user_request.
    destruct (select_user store _); (split; [constructor|done]).
  - rewrite update_user_request.
    destruct (user_model_dump_columns updated_user) as (_ & Hcols & _).
    destruct (user_update_ok _ _ _) eqn:Hok; [|split; [constructor|done]].
    case_decide; (split; [|done]); [constructor|].
    apply step_update_user; [done|]. by apply forallb_columns.
  - rewrite patch_user_request.
    case_decide; [split; [constructor|done]|].
    destruct (forallb user_column _) eqn:Hcols; [|split; [constructor|done]].
    cbn [negb].
    destruct (user_update_ok _ _ _) eqn:Hok; [|split; [constructor|done]].
    case_decide; (split; [|done]); [constructor|].
    apply step_update_user; [done|]. by apply forallb_columns.
Qed.

(** ** Requests and the constraints of the tables *)

Lemma NoDup_fmap_snoc {A B : Type} (f : A → B) (l : list A) (x : A) :
  NoDup (f <$> l) → (∀ y, y ∈ l → f x ≠ f y) → NoDup (f <$> (l ++ [x])).
Proof.
  intros Hl Hx. rewrite fmap_app. apply NoDup_app. split_and!; [done| |].
  - intros b Hb Hbx. apply list_elem_of_fmap in Hb as (y & -> & Hy).
    apply list_elem_of_singleton in Hbx. by apply (Hx y).
  - apply NoDup_singleton.
Qed.

Lemma NoDup_fmap_filter {A B : Type} (f : A → B) (P : A → Prop)
    `{!∀ x, Decision (P x)} (l : list A) :
  NoDup (f <$> l) → NoDup (f <$> filter P l).
Proof.
  induction l as [|x l IH]; [done|]. rewrite fmap_cons, NoDup_cons.
  intros [Hx Hl]. rewrite filter_cons. case_decide; [|by apply IH].
  rewrite fmap_cons, NoDup_cons. split; [|by apply IH].
  intros Hin. apply Hx. apply list_elem_of_fmap in Hin as (y & -> & Hy).
  apply list_elem_of_filter in Hy as [_ Hy]. by apply list_elem_of_fmap_2.
Qed.

(** Rewriting the rows of one key keeps a column free of duplicates when
    no rewritten row takes the value that column has in a row of another
    key. *)
Lemma NoDup_fmap_replace {A B K : Type} `{!EqDecision K} (key : A → K) (f : A → B)
    (g : A → A) (k : K) (l : list A) :
  NoDup (key <$> l) →
  NoDup (f <$> l) →
  (∀ y z, y ∈ l → z ∈ l → key z = k → key y ≠ k → f (g z) ≠ f y) →
  NoDup (f <$> ((λ y, if decide (key y = k) then g y else y) <$> l)).
Proof.
  induction l as [|x l IH]; [done|]. rewrite !fmap_cons, !NoDup_cons.
  intros [Hkx Hkl] [Hfx Hfl] Hfresh. split.
  - intros Hin. apply list_elem_of_fmap in Hin as (w & Hw & Hin).
    apply list_elem_of_fmap in Hin as (z & -> & Hz).
    destruct (decide (key x = k)) as [Hx|Hx], (decide (key z = k)) as [Hz'|Hz'].
    + apply Hkx. rewrite Hx, <- Hz'. by apply list_elem_of_fmap_2.
    + apply (Hfresh z x); [by right|by left|done..].
    + apply (Hfresh x z); [by left|by right|done..].
    + apply Hfx. rewrite Hw. by apply list_elem_of_fmap_2.
  - apply IH; [done..|]. intros y z Hy Hz. apply Hfresh; by right.
Qed.

Lemma Forall_filter_keep {A : Type} (P Q : A → Prop) `{!∀ x, Decision (Q x)}
    (l : list A) :
  Forall P l → Forall P (filter Q l).
Proof.
  rewrite !Forall_forall. intros Hl x Hx. apply list_elem_of_filter in Hx as [_ Hx].
  by apply Hl.
Qed.

Lemma Forall_fmap_replace {A K : Type} `{!EqDecision K} (key : A → K) (P : A → Prop)
    (g : A → A) (k : K) (l : list A) :
  Forall P l →
  (∀ z, z ∈ l → key z = k → P (g z)) →
  Forall P ((λ y, if decide (key y = k) then g y else y) <$> l).
Proof.
  intros Hl Hg. apply Forall_fmap, Forall_forall. intros z Hz. cbn.
  rewrite Forall_forall in Hl. case_decide; auto.
Qed.

Lemma user_update_ok_rows (key : value) (values : dict) (s : Store) :
  user_update_ok key values s = true →
  ∀ z, z ∈ users s → user_id z = key →
    user_row_ok (update_user_row values z) = true
    ∧ ∀ y, y ∈ users s → user_id y ≠ key →
        user_conflicts (update_user_row values z) y = false.
Proof.
  unfold user_update_ok. intros Hok z Hz Hkey.
  apply andb_true_iff in Hok as [Hrows Hex]. apply negb_true_iff in Hex.
  assert (update_user_row values z
          ∈ update_user_row values <$> filter (λ u, user_id u = key) (users s)) as Hin.
  { apply list_elem_of_fmap_2. by apply list_elem_of_filter. }
  split.
  - rewrite forallb_forall in Hrows. by apply Hrows, list_elem_of_In.
  - intros y Hy Hne.
    pose proof (proj1 (existsb_false_Forall _ _) Hex _ Hin) as Hz'. cbn beta in Hz'.
    apply (proj1 (existsb_false_Forall _ _) Hz'). by apply list_elem_of_filter.
Qed.

Lemma user_conflicts_false (u v : UserDB) :
  user_conflicts u v = false →
  user_id u ≠ user_id v ∧ user_email u ≠ user_email v
  ∧ user_student_id u ≠ user_student_id v.
Proof.
  unfold user_conflicts. intros Hc.
  apply orb_false_iff in Hc as [Hc Hsid]. apply orb_false_iff in Hc as [Hid Hemail].
  by rewrite !bool_decide_eq_false in *.
Qed.

Lemma course_conflicts_false (c d : CourseDB) :
  course_conflicts c d = false →
  course_id c ≠ course_id d ∧ course_attrs c ≠ course_attrs d.
Proof.
  unfold course_conflicts. intros Hc. apply orb_false_iff in Hc as [Hid Hattrs].
  by rewrite !bool_decide_eq_false in *.
Qed.

Lemma store_step_ok (s s' : Store) : store_step s s' → store_ok s → store_ok s'.
Proof.
  intros Hstep ((Hurows & Huid & Huemail & Husid) & (Hprows & Hpid)
                & (Hcrows & Hcid & Hcattrs)).
  destruct Hstep as [|u Hok Hex|c Hok Hex|p Hok Hex Hown|key p row Hsel Hok Hex Hown
                     |key|key values Hok Hcols].
  - done.
  - pose proof (proj1 (existsb_false_Forall _ _) Hex) as Hfresh.
    unfold store_ok, users_ok, projects_ok, courses_ok; cbn; split_and!; try done.
    + apply Forall_app. split; [done|]. by apply Forall_singleton.
    + apply NoDup_fmap_snoc; [done|]. intros y Hy.
      by destruct (user_conflicts_false _ _ (Hfresh y Hy)) as (? & ? & ?).
    + apply NoDup_fmap_snoc; [done|]. intros y Hy.
      by destruct (user_conflicts_false _ _ (Hfresh y Hy)) as (? & ? & ?).
    + apply NoDup_fmap_snoc; [done|]. intros y Hy.
      by destruct (user_conflicts_false _ _ (Hfresh y Hy)) as (? & ? & ?).
  - pose proof (proj1 (existsb_false_Forall _ _) Hex) as Hfresh.
    unfold store_ok, users_ok, projects_ok, courses_ok; cbn; split_and!; try done.
    + apply Forall_app. split; [done|]. by apply Forall_singleton.
    + apply NoDup_fmap_snoc; [done|]. intros y Hy.
      by destruct (course_conflicts_false _ _ (Hfresh y Hy)).
    + apply NoDup_fmap_snoc; [done|]. intros y Hy.
      by destruct (course_conflicts_false _ _ (Hfresh y Hy)).
  - pose proof (proj1 (existsb_false_Forall _ _) Hex) as Hfresh.
    unfold store_ok, users_ok, projects_ok, courses_ok; cbn; split_and!; try done.
    + apply Forall_app. split; [done|]. by apply Forall_singleton.
    + apply NoDup_fmap_snoc; [done|]. intros y Hy.
      specialize (Hfresh y Hy). unfold project_conflicts in Hfresh.
      by apply bool_decide_eq_false in Hfresh.
  - pose proof (proj1 (existsb_false_Forall _ _) Hex) as Hfresh.
    unfold store_ok, users_ok, projects_ok, courses_ok; cbn; split_and!; try done.
    + by apply (Forall_fmap_replace project_id _ (λ _, p)).
    + apply (NoDup_fmap_replace project_id project_id (λ _, p)); [done..|].
      intros y z Hy _ _ Hne.
      assert (y ∈ filter (λ q, project_id q ≠ key) (projects s)) as Hin
        by by apply list_elem_of_filter.
      specialize (Hfresh y Hin). unfold project_conflicts in Hfresh.
      by apply bool_decide_eq_false in Hfresh.
  - unfold store_ok, users_ok, projects_ok, courses_ok; cbn; split_and!; try done.
    + by apply Forall_filter_keep.
    + by apply NoDup_fmap_filter.
    + by apply NoDup_fmap_filter.
    + by apply NoDup_fmap_filter.
    + by apply Forall_filter_keep.
    + by apply NoDup_fmap_filter.
  - pose proof (user_update_ok_rows _ _ _ Hok) as Hrows.
    unfold store_ok, users_ok, projects_ok, courses_ok; cbn; split_and!; try done.
    + apply (Forall_fmap_replace user_id _ (update_user_row values)); [done|].
      intros z Hz Hkey. by destruct (Hrows z Hz Hkey).
    + apply (NoDup_fmap_replace user_id user_id (update_user_row values)); [done..|].
      intros y z Hy Hz Hkey Hne. destruct (Hrows z Hz Hkey) as [_ Hfresh].
      by destruct (user_conflicts_false _ _ (Hfresh y Hy Hne)) as (? & ? & ?).
    + apply (NoDup_fmap_replace user_id user_email (update_user_row values));
        [done..|].
      intros y z Hy Hz Hkey Hne. destruct (Hrows z Hz Hkey) as [_ Hfresh].
      by destruct (user_conflicts_false _ _ (Hfresh y Hy Hne)) as (? & ? & ?).
    + apply (NoDup_fmap_replace user_id user_student_id (update_user_row values));
        [done..|].
      intros y z Hy Hz Hkey Hne. destruct (Hrows z Hz Hkey) as [_ Hfresh].
      by destruct (user_conflicts_false _ _ (Hfresh y Hy Hne)) as (? & ? & ?).
Qed.

Lemma store_step_owners (s s' : Store) :
  store_step s s' →
  owners_exist s →
  owners_exist s'
  ∨ ∃ key values v, values !! "id" = Some v ∧ s' = with_user_updated key values s.
Proof.
  unfold owners_exist. intros Hstep Hown.
  destruct Hstep as [|u _ _|c _ _|p _ _ Hp|key p row Hsel _ _ Hp|key|key values _ _].
  - by left.
  - left. cbn. eapply Forall_impl; [done|]. intros p Hp. cbn in Hp.
    apply Exists_app. by left.
  - by left.
  - left. cbn. apply Forall_app. split; [done|]. by apply Forall_singleton.
  - left. cbn. apply (Forall_fmap_replace project_id _ (λ _, p)); [done|].
    intros _ _ _. destruct Hp as [Hp|Hp]; [done|]. rewrite Hp.
    apply select_project_Some in Hsel as [_ Hrow].
    rewrite Forall_forall in Hown. by apply Hown.
  - left. cbn. apply Forall_forall. intros p Hp.
    apply list_elem_of_filter in Hp as [Hne Hp].
    rewrite Forall_forall in Hown. specialize (Hown p Hp).
    apply Exists_exists in Hown as (u & Hu & Hid). apply Exists_exists.
    exists u. split; [|done]. apply list_elem_of_filter. split; [congruence|done].
  - destruct (values !! "id") as [v|] eqn:Hid; [right; by exists key, values, v|].
    left. cbn. eapply Forall_impl; [done|]. intros p Hp. cbn in Hp.
    apply Exists_exists in Hp as (u & Hu & Hp). apply Exists_exists.
    exists (if decide (user_id u = key) then update_user_row values u else u).
    split; [apply list_elem_of_fmap; by exists u|].
    case_decide; [|done]. unfold update_user_row, assign. cbn. by rewrite Hid.
Qed.



(** X20: The constraints of the three tables are an invariant of the
    application: on a store whose rows have their required columns set and
    whose keys and unique columns do not repeat, every handler leaves a store
    of that kind, whatever the request and whether it succeeds or not. *)
Theorem requests_keep_constraints {A : Type} (handler : M A) (store : Store) :
  endpoint handler →
  store_ok store →
  store_ok (request handler store).1.
Proof.
  intros Hendpoint Hok. destruct (endpoint_step handler store Hendpoint) as [Hstep _].
  by apply (store_step_ok store).
Qed.

(** X21: Every project has a stored user as its owner after a request if it
    was so before, with one exception: a request that leaves the store as
    an update statement on users that sets the [id] column leaves it. *)
Theorem requests_keep_owners {A : Type} (handler : M A) (store : Store) :
  endpoint handler →
  owners_exist store →
  owners_exist (request handler store).1
  ∨ ∃ key values v,
      values !! "id" = Some v
      ∧ (request handler store).1 = with_user_updated key values store.
Proof.
  intros Hendpoint Hown. destruct (endpoint_step handler store Hendpoint) as [Hstep _].
  by apply (store_step_owners store).
Qed.

Lemma requests_keep_constraints_witness :
  store_ok (request (patch_user 1 {[ "email" := VStr "ann@x.com" ]}) example_store).1.
Proof.
  apply (requests_keep_constraints (patch_user 1 {[ "email" := VStr "ann@x.com" ]})).
  - constructor.
  - unfold store_ok, users_ok, projects_ok, courses_ok.
    apply (bool_decide_unpack _). vm_compute. reflexivity.
Defined.

Lemma requests_keep_owners_witness :
  owners_exist (request (delete_user 1) example_store).1
  ∨ ∃ key values v,
      values !! "id" = Some v
      ∧ (request (delete_user 1) example_store).1
        = with_user_updated key values example_store.
Proof.
  apply (requests_keep_owners (delete_user 1)).
  - constructor.
  - unfold owners_exist. cbn.
    constructor; [by left|]. constructor; [right; by left|].
    constructor; [by left|]. constructor.
Defined.

(** ** The errors of a request *)



(** ** Importing app/database.py *)




(** X24: With a retry count of zero or less the body of the loop never runs:
    no engine is created, no connection is attempted, the name [engine] is
    never bound, and the import of the module fails with a [NameError] where
    the session factory is built, whatever the state of the store. *)
Theorem import_without_retries (env : Database.Environ) (connect : nat → bool) :
  Database.RETRIES env ≤ 0 →
  Database.import_database env connect Database.initial
  = (Database.initial, Raised NameError)
  ∧ Database.startup env connect = (Database.initial, Raised NameError).
Proof.
  intros Hretries.
  assert (Database.import_database env connect Database.initial
          = (Database.initial, Raised NameError)) as Himport.
  { unfold Database.import_database.
    replace (Z.to_nat (Database.RETRIES env)) with 0%nat by lia. done. }
  split; [done|]. unfold Database.startup. by rewrite Himport.
Qed.

Lemma import_without_retries_witness :
  Database.startup (Database.mkEnviron (Some (-3)) None) (λ _, true)
  = (Database.initial, Raised NameError).
Proof.
  apply (import_without_retries (Database.mkEnviron (Some (-3)) None) (λ _, true)).
  cbn. lia.
Defined.
